(** * Report service: PDF finalisation, page-numbered footers and overlay

    A shallow embedding of [api/services/report_service.py] (class
    [ReportService]) and the properties of its routing, footer generation
    and overlay passes.

    The Python code talks to four collaborators: the HTTP renderer
    (Gotenberg, through [requests.post]), the chunking service, the template
    engine (Jinja) and the PDF library (pikepdf).  They are gathered in a
    record [World]; the service code is embedded as functions in a state and
    exception monad whose state holds the heap of dict objects and the trace
    of outward calls and log records.

    The date filter [format_datetime] and the stored-template entry point of
    the same file, and the GC Notify provider
    ([notify_delivery/services/providers/gc_notify.py]), follow in modules
    of their own. *)

From Stdlib Require Import ZArith String List Lia.
From Stdlib.Strings Require Import Byte.
From stdpp Require Import base option list gmap strings pretty.

Local Open Scope string_scope.
Local Open Scope list_scope.
Local Open Scope stdpp_scope.
Local Open Scope Z_scope.

(** ** Python values *)

Module Py.

(** JSON-shaped values, as stored in the [template_args] dict. *)
#[warnings="-register-all"] Inductive pyval : Type :=
| PyNone
| PyBool (b : bool)
| PyInt (z : Z)
| PyStr (s : string)
| PyList (l : list pyval)
| PyDict (kv : list (string * pyval)).

(** [bool(v)] *)
Definition truthy (v : pyval) : bool :=
  match v with
  | PyNone => false
  | PyBool b => b
  | PyInt z => negb (z =? 0)
  | PyStr s => negb (String.eqb s "")
  | PyList l => match l with [] => false | _ :: _ => true end
  | PyDict kv => match kv with [] => false | _ :: _ => true end
  end.

(** [needle in hay] on two [str] *)
Fixpoint contains (needle hay : string) : bool :=
  if String.prefix needle hay then true
  else match hay with
       | EmptyString => false
       | String _ hay' => contains needle hay'
       end.

(** [d.get(k)]: the value, or [None] when the key is absent *)
Definition dict_get (d : gmap string pyval) (k : string) : pyval :=
  default PyNone (d !! k).

(** [d.get(k, dflt)] *)
Definition dict_get_default (d : gmap string pyval) (k : string) (dflt : pyval) : pyval :=
  default dflt (d !! k).

(** [v or ''] *)
Definition or_empty_str (v : pyval) : pyval :=
  if truthy v then v else PyStr "".

(** A collection in the sense of the data model: list, dict or str. *)
Definition is_collection (v : pyval) : bool :=
  match v with
  | PyList _ | PyDict _ | PyStr _ => true
  | _ => false
  end.

(** [len(v) > 0] for a collection *)
Definition nonempty (v : pyval) : bool :=
  match v with
  | PyList (_ :: _) | PyDict (_ :: _) => true
  | PyStr s => negb (String.eqb s "")
  | _ => false
  end.

End Py.
Import Py.

(** ** Exceptions, requests, events *)

(** Exceptions (all subclasses of [Exception]) that the code or a
    collaborator can raise. *)
Inductive exn : Type :=
| HTTPError (status_code : Z)
| AttributeError (msg : string)
| TypeError (msg : string)
| LibraryError (msg : string).

(** One multipart file part: [("files", (filename, body, mime))]. *)
Record file_part : Type := FilePart {
  field : string;
  filename : string;
  body : string;
  mime : string
}.

(** The arguments of one [requests.post]. *)
Record request : Type := Request {
  endpoint : string;
  files : list file_part;
  data : list (string * string);
  timeout : Z
}.

Record response : Type := Response {
  status_code : Z;
  content : list byte
}.

Inductive log_level : Type := WARNING | ERROR.

(** Object references: a dict lives in the heap and is passed by reference. *)
Abbreviation loc := positive.

Inductive event : Type :=
| EvPost (req : request)
| EvChunk (template_name : pyval) (template_args : option loc) (generate_page_number : bool)
| EvLog (lvl : log_level) (text : string) (page_no : option Z) (cause : exn).

(** ** The state and exception monad *)

Record state : Type := State {
  heap : gmap loc (gmap string pyval);
  trace : list event
}.

Inductive outcome (A : Type) : Type :=
| Returned (a : A)
| Raised (e : exn).
Arguments Returned {A} a.
Arguments Raised {A} e.

Definition M (A : Type) : Type := state → outcome A * state.

#[global] Instance M_ret : MRet M := λ A a s, (Returned a, s).

#[global] Instance M_bind : MBind M := λ A B f m s,
  match m s with
  | (Returned a, s') => f a s'
  | (Raised e, s') => (Raised e, s')
  end.

Definition raise {A} (e : exn) : M A := λ s, (Raised e, s).

(** A library call: returns or raises, no other effect. *)
Definition lift {A} (r : exn + A) : M A :=
  match r with
  | inl e => raise e
  | inr a => mret a
  end.

(** [try: body  except Exception as e: handler(e)] *)
Definition try_except {A} (body : M A) (handler : exn → M A) : M A := λ s,
  match body s with
  | (Raised e, s') => handler e s'
  | (Returned a, s') => (Returned a, s')
  end.

Definition emit (ev : event) : M unit := λ s,
  (Returned tt, State (heap s) (trace s ++ [ev])).

Definition get_trace : M (list event) := λ s, (Returned (trace s), s).

(** [d.copy()]: a new dict object with the same entries (shallow copy).  A
    reference that the heap does not hold reads as the empty dict. *)
Definition dict_copy (l : loc) : M loc := λ s,
  let l' := fresh (dom (heap s)) in
  (Returned l', State (<[l' := default ∅ (heap s !! l)]> (heap s)) (trace s)).

(** [d[k] = v] *)
Definition dict_setitem (l : loc) (k : string) (v : pyval) : M unit := λ s,
  (Returned tt, State (<[l := <[k := v]> (default ∅ (heap s !! l))]> (heap s)) (trace s)).

Definition dict_read (l : loc) : M (gmap string pyval) := λ s,
  (Returned (default ∅ (heap s !! l)), s).

(** [(template_args or {})], read as its entries. *)
Definition args_or_empty (template_args : option loc) : M (gmap string pyval) :=
  match template_args with
  | None => mret ∅
  | Some l => dict_read l
  end.

(** ** The collaborators *)

(** What the service needs from its environment.  [page] is a page object of
    the PDF library and [template] a compiled template.  The two remote
    services answer depending on the calls made so far (the trace); the
    libraries are functions of their arguments. *)
Record World (page template : Type) : Type := {
  (** [current_app.config.get('GOTENBERG_URL')] *)
  config_GOTENBERG_URL : option string;
  (** [api.utils.util.TEMPLATE_FOLDER_PATH] *)
  TEMPLATE_FOLDER_PATH : string;
  (** the transport under [requests.post]: a response, or a connection error
      or timeout *)
  http_post : list event → request → exn + response;
  (** [api.services.chunk_report_service.ChunkReportService.create_chunk_report],
      a collaborator outside this module, on the entries of the dict *)
  chunk_report :
    list event → pyval → option (gmap string pyval) → bool → exn + list byte;
  (** [ENV.get_template(path)] *)
  get_template : string → exn + template;
  (** [base64.b64decode(s).decode('utf-8')] then [sandbox_env.from_string] *)
  sandbox_from_string : string → exn + template;
  (** [template.render(d)] on a dict *)
  template_render : template → gmap string pyval → exn + string;
  (** [api.services.page_info.get_pdf_page_count], a helper outside this
      module: any function from bytes to a count, or an error *)
  get_pdf_page_count : list byte → exn + Z;
  (** [pikepdf.Pdf.open(BytesIO(b))], read as its [pages] *)
  pdf_open : list byte → exn + list page;
  (** [result_pdf.pages.append(p)] then [result_pdf.pages[-1]]: the copy of
      a page of another document *)
  pdf_pages_append : page → exn + page;
  (** [hasattr(base_page, 'add_overlay')] *)
  page_has_add_overlay : bool;
  (** [base_page.add_overlay(overlay_page)]: the page once overlaid; when it
      raises the page is as before *)
  page_add_overlay : page → page → exn + page;
  (** [result_pdf.save(buffer)] then [buffer.getvalue()] *)
  pdf_save : list page → exn + list byte
}.
Arguments config_GOTENBERG_URL {page template} _.
Arguments TEMPLATE_FOLDER_PATH {page template} _.
Arguments http_post {page template} _ _ _.
Arguments chunk_report {page template} _ _ _ _ _.
Arguments get_template {page template} _ _.
Arguments sandbox_from_string {page template} _ _.
Arguments template_render {page template} _ _ _.
Arguments get_pdf_page_count {page template} _ _.
Arguments pdf_open {page template} _ _.
Arguments pdf_pages_append {page template} _ _.
Arguments page_has_add_overlay {page template} _.
Arguments page_add_overlay {page template} _ _ _.
Arguments pdf_save {page template} _ _.

(** ** The requests library *)

Module Requests.

(** [requests.post(endpoint, files=.., data=.., timeout=..)] *)
Definition post {page template} (w : World page template) (req : request) : M response :=
  tr ← get_trace;
  emit (EvPost req);;
  lift (http_post w tr req).

(** [Response.raise_for_status()] of the requests library: raises
    [HTTPError] when [400 <= status_code < 600] (client or server error),
    and returns for every other status. *)
Definition raise_for_status (resp : response) : M unit :=
  if (400 <=? status_code resp) && (status_code resp <? 600)
  then raise (HTTPError (status_code resp))
  else mret tt.

End Requests.

(** ** ReportService *)

Module ReportService.
Section Service.

Context {page template : Type} (w : World page template).

Definition statement_marker : string := "statement_report".

(** [current_app.config.get('GOTENBERG_URL', 'http://localhost:3000')]
    followed by [f"{gotenberg_url}/forms/chromium/convert/html"] *)
Definition gotenberg_endpoint : string :=
  default "http://localhost:3000" (config_GOTENBERG_URL w)
    +:+ "/forms/chromium/convert/html".

Definition html_part (name content : string) : file_part :=
  FilePart "files" name content "text/html".

(** [generate_page_number and footer_html], as a condition *)
Definition wants_footer (generate_page_number : bool) (footer_html : option string) : bool :=
  generate_page_number &&
  match footer_html with
  | None => false
  | Some f => negb (String.eqb f "")
  end.

(** The form that [generate_pdf] builds: [files] and [data], with the footer
    part and the [footer] instruction appended under the [if]. *)
Definition pdf_request (html_out : string) (generate_page_number : bool)
    (footer_html : option string) : request :=
  let files := [html_part "index.html" html_out] in
  let data := [] in
  if wants_footer generate_page_number footer_html
  then Request gotenberg_endpoint
         (files ++ [html_part "footer.html" (default "" footer_html)])
         (data ++ [("footer", "footer.html")]) 120
  else Request gotenberg_endpoint files data 120.

Definition generate_pdf (html_out : string) (generate_page_number : bool)
    (footer_html : option string) : M (list byte) :=
  resp ← Requests.post w (pdf_request html_out generate_page_number footer_html);
  Requests.raise_for_status resp;;
  mret (content resp).

Definition empty_html : string := "<!DOCTYPE html>".

(** The form that [generate_single_footer_pdf] submits. *)
Definition footer_request (footer_html : string) : request :=
  Request gotenberg_endpoint
    [html_part "index.html" empty_html; html_part "footer.html" footer_html]
    [("footer", "footer.html")] 120.

Definition generate_single_footer_pdf (footer_template : template)
    (template_args : option loc) (current_page total_pages : Z) : M (list byte) :=
  page_args ← match template_args with
              | None => raise (AttributeError "'NoneType' object has no attribute 'copy'")
              | Some l => dict_copy l
              end;
  dict_setitem page_args "current_page" (PyInt current_page);;
  dict_setitem page_args "total_pages" (PyInt total_pages);;
  ctx ← dict_read page_args;
  footer_html ← lift (template_render w footer_template ctx);
  resp ← Requests.post w (footer_request footer_html);
  Requests.raise_for_status resp;;
  mret (content resp).

(** The loop of [_generate_footer_pdfs] over the remaining indices. *)
Fixpoint footer_loop (footer_template : template) (template_args : option loc)
    (total_pages : Z) (indices : list Z) (footer_pdfs : list (list byte))
    : M (list (list byte)) :=
  match indices with
  | [] => mret footer_pdfs
  | i :: rest =>
      footer_pdf ← generate_single_footer_pdf footer_template template_args
                     (i + 1) total_pages;
      footer_loop footer_template template_args total_pages rest
        (footer_pdfs ++ [footer_pdf])
  end.

(** [range(n)] *)
Definition range (n : Z) : list Z := seqZ 0 n.

Definition _generate_footer_pdfs (template_args : option loc) (total_pages : Z)
    : M (list (list byte)) :=
  footer_template ←
    lift (get_template w (TEMPLATE_FOLDER_PATH w +:+ "/statement_footer.html"));
  footer_loop footer_template template_args total_pages (range total_pages) [].

Definition log_warning (text : string) (page_no : option Z) (e : exn) : M unit :=
  emit (EvLog WARNING text page_no e).

Definition log_error (text : string) (e : exn) : M unit :=
  emit (EvLog ERROR text None e).

(** [_overlay_page_content]: the base page is changed in place; here the
    page after the call is returned. *)
Definition _overlay_page_content (base_page overlay_page : page) : M page :=
  try_except
    (if page_has_add_overlay w
     then lift (page_add_overlay w base_page overlay_page)
     else mret base_page)
    (λ e, log_warning "Could not overlay page content: " None e;;
          mret base_page).

(** The inner [try] of the loop, for a page that has a footer document. *)
Definition overlay_footer (i : nat) (new_page : page) (footer_bytes : list byte)
    : M page :=
  try_except
    (footer_pages ← lift (pdf_open w footer_bytes);
     match footer_pages with
     | footer_page :: _ => _overlay_page_content new_page footer_page
     | [] => mret new_page
     end)
    (λ e, log_warning "Could not overlay footer on page " (Some (Z.of_nat i + 1)) e;;
          mret new_page).

(** One iteration of [for i, main_page in enumerate(main_pdf.pages)]: the
    page that the result document holds for it at the end. *)
Definition overlay_step (footer_pdfs : list (list byte)) (i : nat) (main_page : page)
    : M page :=
  new_page ← lift (pdf_pages_append w main_page);
  match footer_pdfs !! i with          (* if i < len(footer_pdfs) *)
  | Some footer_bytes => overlay_footer i new_page footer_bytes
  | None => mret new_page
  end.

Fixpoint overlay_loop (footer_pdfs : list (list byte)) (i : nat)
    (main_pages : list page) (result_pages : list page) : M (list page) :=
  match main_pages with
  | [] => mret result_pages
  | main_page :: rest =>
      p ← overlay_step footer_pdfs i main_page;
      overlay_loop footer_pdfs (S i) rest (result_pages ++ [p])
  end.

(** The body of the outer [try] of [_overlay_footer_pdfs_on_main_pdf]. *)
Definition overlay_body (main_pdf_bytes : list byte) (footer_pdfs : list (list byte))
    : M (list byte) :=
  main_pages ← lift (pdf_open w main_pdf_bytes);
  result_pages ← overlay_loop footer_pdfs 0 main_pages [];
  lift (pdf_save w result_pages).

Definition _overlay_footer_pdfs_on_main_pdf (main_pdf_bytes : list byte)
    (footer_pdfs : list (list byte)) : M (list byte) :=
  try_except
    (overlay_body main_pdf_bytes footer_pdfs)
    (λ e, log_error "Error overlaying footer PDFs: " e;;
          mret main_pdf_bytes).

Definition _generate_pdf_with_page_numbers (template_name : pyval)
    (template_args : option loc) (html_out : string) : M (list byte) :=
  first_pass_pdf ← generate_pdf html_out false None;
  total_pages ← lift (get_pdf_page_count w first_pass_pdf);
  footer_pdfs ← _generate_footer_pdfs template_args total_pages;
  _overlay_footer_pdfs_on_main_pdf first_pass_pdf footer_pdfs.

(** [ChunkReportService.create_chunk_report(name, args, flag)] *)
Definition create_chunk_report (template_name : pyval) (template_args : option loc)
    (generate_page_number : bool) : M (list byte) :=
  tr ← get_trace;
  d ← match template_args with
      | None => mret None
      | Some l => d ← dict_read l; mret (Some d)
      end;
  emit (EvChunk template_name template_args generate_page_number);;
  lift (chunk_report w tr template_name d generate_page_number).

(** ['statement_report' in (template_name or '')] *)
Definition is_statement (template_name : pyval) : exn + bool :=
  match or_empty_str template_name with
  | PyStr s => inr (contains statement_marker s)
  | PyList l =>
      inr (existsb (λ v, match v with
                         | PyStr s => String.eqb s statement_marker
                         | _ => false
                         end) l)
  | PyDict kv => inr (existsb (λ e, String.eqb (fst e) statement_marker) kv)
  | _ => inl (TypeError "argument of this type is not iterable")
  end.

(** [bool((template_args or {}).get('groupedInvoices'))] *)
Definition has_grouped_invoices (template_args : option loc) : M bool :=
  d ← args_or_empty template_args;
  mret (truthy (dict_get d "groupedInvoices")).

Definition _finalize_pdf (template_name : pyval) (template_args : option loc)
    (html_out : string) (generate_page_number : bool) : M (list byte) :=
  is_stmt ← lift (is_statement template_name);
  has_grouped ← has_grouped_invoices template_args;
  let footer_html : option string := None in
  if is_stmt && has_grouped then
    create_chunk_report template_name template_args generate_page_number
  else if is_stmt && generate_page_number then
    _generate_pdf_with_page_numbers template_name template_args html_out
  else
    generate_pdf html_out generate_page_number footer_html.

(** [template_.render(template_args)]: Jinja builds [dict(template_args)],
    which raises for [None]. *)
Definition render_args (t : template) (template_args : option loc) : M string :=
  match template_args with
  | None => raise (TypeError "'NoneType' object is not iterable")
  | Some l => d ← dict_read l; lift (template_render w t d)
  end.

Definition create_report_from_template (template_string : string)
    (template_args : option loc) (generate_page_number : bool) : M (list byte) :=
  template_ ← lift (sandbox_from_string w template_string);
  html_out ← render_args template_ template_args;
  d ← args_or_empty template_args;
  let report_name := dict_get_default d "reportName" (PyStr "") in
  _finalize_pdf report_name template_args html_out generate_page_number.

End Service.
End ReportService.

(** ** A deterministic stub of the collaborators

    Used to run the service on concrete requests.  A stub document is the
    byte [P] followed by one byte per page (a leading blank is accepted by
    the reader and never written); a page is its byte, and overlaying is the
    bitwise or of the two pages, so that the bits of the base page stay. *)

Module Stub.

Definition byte_or (a b : byte) : byte :=
  default a (Byte.of_N (N.lor (Byte.to_N a) (Byte.to_N b))).

Definition stub_open (b : list byte) : exn + list byte :=
  match b with
  | x50 :: pages => inr pages
  | x20 :: x50 :: pages => inr pages
  | _ => inl (LibraryError "not a PDF")
  end.

(** The footer template prints [current_page/total_pages]. *)
Definition stub_render (t : string) (ctx : gmap string pyval) : exn + string :=
  match ctx !! "current_page", ctx !! "total_pages" with
  | Some (PyInt k), Some (PyInt n) => inr (pretty k +:+ "/" +:+ pretty n)
  | _, _ => inr t
  end.

(** The renderer answers [status] to every request; a request without a
    footer part gets the document [main], one with a footer part a
    one-page footer document, or a broken one when the footer reads [bad]. *)
Definition stub_post (status : Z) (main : list byte) (bad : string)
    (tr : list event) (req : request) : exn + response :=
  match files req with
  | [_; footer] =>
      if String.eqb (body footer) bad
      then inr (Response status [x00])
      else inr (Response status [x50; x80])
  | _ => inr (Response status main)
  end.

(** Overlaying a footer page without content fails. *)
Definition stub_add_overlay (p q : byte) : exn + byte :=
  if Byte.eqb q x00 then inl (LibraryError "empty overlay") else inr (byte_or p q).

Definition stub (status : Z) (main : list byte) (bad : string) : World byte string := {|
  config_GOTENBERG_URL := None;
  TEMPLATE_FOLDER_PATH := "templates";
  http_post := stub_post status main bad;
  chunk_report := λ _ _ _ _, inr [x43];
  get_template := λ path, inr path;
  sandbox_from_string := λ s, inr s;
  template_render := stub_render;
  get_pdf_page_count := λ b,
    match stub_open b with
    | inr ps => inr (Z.of_nat (length ps))
    | inl e => inl e
    end;
  pdf_open := stub_open;
  pdf_pages_append := λ p, inr p;
  page_has_add_overlay := true;
  page_add_overlay := stub_add_overlay;
  pdf_save := λ ps, inr (x50 :: ps)
|}.

(** Two dict objects: at reference 1 a statement without grouped
    invoices, at reference 2 one with a group of invoices. *)
Definition st0 : state :=
  State
    (<[ 2%positive := {[ "groupedInvoices" := PyList [PyDict [("id", PyInt 7)]] ]} ]>
       {[ 1%positive := {[ "accountName" := PyStr "acme" ]} ]})
    [].

Definition three_pages : list byte := [x50; x01; x02; x03].
Definition five_pages : list byte := [x50; x01; x02; x03; x04; x05].
(** A document without pages, with a leading blank. *)
Definition no_pages : list byte := [x20; x50].
(** A footer document of one page, and one that does not open. *)
Definition good_footer : list byte := [x50; x80].
Definition bad_footer : list byte := [x00].

End Stub.

(** ** Definitions used by the statements *)

(** The state after some more events. *)
Definition with_trace (s : state) (evs : list event) : state :=
  State (heap s) (trace s ++ evs).

(** The status test of [raise_for_status]. *)
Definition error_status (sc : Z) : bool := (400 <=? sc) && (sc <? 600).

(** What a caller of the renderer gets for an answer of the transport. *)
Definition checked (r : exn + response) : outcome (list byte) :=
  match r with
  | inl e => Raised e
  | inr resp =>
      if error_status (status_code resp)
      then Raised (HTTPError (status_code resp))
      else Returned (content resp)
  end.

(** The context of the footer of one page: the entries of [template_args]
    with [current_page] and [total_pages] set. *)
Definition page_context (d : gmap string pyval) (current_page total_pages : Z)
    : gmap string pyval :=
  <["total_pages" := PyInt total_pages]> (<["current_page" := PyInt current_page]> d).

(** The entries of [(template_args or {})] in a state. *)
Definition args_entries (s : state) (template_args : option loc) : gmap string pyval :=
  match template_args with
  | None => ∅
  | Some l => default ∅ (heap s !! l)
  end.

(** The dict that a collaborator sees for [template_args]. *)
Definition args_dict (s : state) (template_args : option loc)
    : option (gmap string pyval) :=
  match template_args with
  | None => None
  | Some l => Some (default ∅ (heap s !! l))
  end.

(** A template name that is a [str] or [None]. *)
Definition name_value (name : option string) : pyval :=
  match name with
  | None => PyNone
  | Some s => PyStr s
  end.

(** The outcome of a library call. *)
Definition outcome_of {A} (r : exn + A) : outcome A :=
  match r with
  | inl e => Raised e
  | inr a => Returned a
  end.

(** *** The overlay pass, page by page

    What the inner [try] of the overlay loop leaves for the copy [c] of main
    page [i]: the page that the result holds, and the warnings logged. *)
Section PageOutcome.

Context {page template : Type} (w : World page template).

Definition page_after (footer_pdfs : list (list byte)) (i : nat) (c : page) : page :=
  match footer_pdfs !! i with
  | None => c
  | Some footer_bytes =>
      match pdf_open w footer_bytes with
      | inl _ => c
      | inr [] => c
      | inr (footer_page :: _) =>
          if page_has_add_overlay w
          then match page_add_overlay w c footer_page with
               | inl _ => c
               | inr c' => c'
               end
          else c
      end
  end.

Definition page_warnings (footer_pdfs : list (list byte)) (i : nat) (c : page)
    : list event :=
  match footer_pdfs !! i with
  | None => []
  | Some footer_bytes =>
      match pdf_open w footer_bytes with
      | inl e => [EvLog WARNING "Could not overlay footer on page "
                    (Some (Z.of_nat i + 1)) e]
      | inr [] => []
      | inr (footer_page :: _) =>
          if page_has_add_overlay w
          then match page_add_overlay w c footer_page with
               | inl e => [EvLog WARNING "Could not overlay page content: " None e]
               | inr _ => []
               end
          else []
      end
  end.

Fixpoint pages_after (footer_pdfs : list (list byte)) (i : nat) (copies : list page)
    : list page :=
  match copies with
  | [] => []
  | c :: rest => page_after footer_pdfs i c :: pages_after footer_pdfs (S i) rest
  end.

Fixpoint warnings_after (footer_pdfs : list (list byte)) (i : nat) (copies : list page)
    : list event :=
  match copies with
  | [] => []
  | c :: rest => page_warnings footer_pdfs i c ++ warnings_after footer_pdfs (S i) rest
  end.

(** The page count of a document, as the PDF library reads it. *)
Definition page_count (b : list byte) : option nat :=
  match pdf_open w b with
  | inr pages => Some (length pages)
  | inl _ => None
  end.

(** A saved document reopens with as many pages as were saved. *)
Definition save_keeps_page_count : Prop :=
  ∀ pages b, pdf_save w pages = inr b → page_count b = Some (length pages).

Definition is_warning (ev : event) : Prop :=
  ∃ text page_no e, ev = EvLog WARNING text page_no e.

End PageOutcome.

(** Every main page has a copy in the result document. *)
Definition copied {page template} (w : World page template)
    (main_pages copies : list page) : Prop :=
  Forall2 (λ p c, pdf_pages_append w p = inr c) main_pages copies.

(** The record of the outer [except] of the overlay pass. *)
Definition overlay_error (e : exn) : event :=
  EvLog ERROR "Error overlaying footer PDFs: " None e.

(** *** Footer generation *)
Section FooterSpec.

Context {page template : Type} (w : World page template).

(** The renderer answers every request, with a status outside 400-599. *)
Definition renderer_succeeds : Prop :=
  ∀ tr req, ∃ resp,
    http_post w tr req = inr resp ∧ ¬ (400 ≤ status_code resp < 600).

(** The footer HTML of page [k] of [n]: the footer template rendered on
    the page context. *)
Definition footer_html (t : template) (d : gmap string pyval) (k n : Z) : string :=
  match template_render w t (page_context d k n) with
  | inr html => html
  | inl _ => ""
  end.

(** The post that generates the footer document of page [k] of [n]. *)
Definition footer_post (t : template) (d : gmap string pyval) (n k : Z) : event :=
  EvPost (ReportService.footer_request w (footer_html t d k n)).

Definition footer_template_path : string :=
  TEMPLATE_FOLDER_PATH w +:+ "/statement_footer.html".

End FooterSpec.

(** ** The stored-template entry point *)

Module StoredTemplates.
Section Entry.

Context {page template : Type} (w : World page template).

(** [flask.url_for(endpoint, filename=f)] *)
Variable url_for : string → string → exn + string.

(** [template.render(template_args, bclogoUrl=b, registriesurl=r)]: Jinja
    renders on [dict(template_args, bclogoUrl=b, registriesurl=r)], a new
    dict in which the two keywords win; [dict(None, ..)] raises. *)
Definition render_with_logos (t : template) (template_args : option loc)
    (bc_logo_url registries_url : string) : M string :=
  match template_args with
  | None => raise (TypeError "'NoneType' object is not iterable")
  | Some l =>
      d ← dict_read l;
      lift (template_render w t
              (<["registriesurl" := PyStr registries_url]>
                 (<["bclogoUrl" := PyStr bc_logo_url]> d)))
  end.

Definition create_report_from_stored_template (template_name : string)
    (template_args : option loc) (generate_page_number : bool) : M (list byte) :=
  t ← lift (get_template w
              (TEMPLATE_FOLDER_PATH w +:+ "/" +:+ template_name +:+ ".html"));
  bc_logo_url ← lift (url_for "static" "images/bcgov-logo-vert.jpg");
  registries_url ← lift (url_for "static" "images/reg_logo.png");
  html_out ← render_with_logos t template_args bc_logo_url registries_url;
  ReportService._finalize_pdf w (PyStr template_name) template_args html_out
    generate_page_number.

End Entry.
End StoredTemplates.

(** ** The date filter *)

Module DateFormat.
Section Filter.

(** [dateutil.parser] and [datetime]: the parsed date is opaque. *)
Context {datetime : Type}.
(** [parser.parse(value)] *)
Variable parse : pyval → exn + datetime.
(** [d.strftime(fmt)] *)
Variable strftime : datetime → string → exn + string.
(** [int(d.timestamp())] *)
Variable int_timestamp : datetime → exn + Z.

(** [parser.parse(value).strftime(dt_format)] *)
Definition parse_strftime (value : pyval) (dt_format : string) : exn + pyval :=
  match parse value with
  | inl e => inl e
  | inr d => match strftime d dt_format with
             | inl e => inl e
             | inr s => inr (PyStr s)
             end
  end.

Definition format_datetime (value : pyval) (format : string) : exn + pyval :=
  let dt_format := "%m-%d-%Y" in
  if String.eqb format "full" then
    parse_strftime value "%m-%d-%Y %I:%M %p"
  else if String.eqb format "short" then
    parse_strftime value "%m-%d-%Y"
  else if String.eqb format "month" then
    parse_strftime value "%B"
  else if String.eqb format "yyyy-mm-dd" then
    parse_strftime value "%Y-%m-%d"
  else if String.eqb format "mmm dd,yyyy" then
    parse_strftime value "%B %e, %Y"
  else if String.eqb format "detail" then
    parse_strftime value "%B %d, %Y at %I:%M %p Pacific Time"
  else if String.eqb format "unix" then
    match parse value with
    | inl e => inl e
    | inr d => match int_timestamp d with
               | inl e => inl e
               | inr z => inr (PyInt z)
               end
    end
  else
    parse_strftime value dt_format.

(** The format names that [format_datetime] tells apart. *)
Definition known_formats : list string :=
  ["full"; "short"; "month"; "yyyy-mm-dd"; "mmm dd,yyyy"; "detail"; "unix"].

End Filter.
End DateFormat.

(** ** More definitions used by the statements *)

(** The requests posted to the renderer in a trace, in order. *)
Fixpoint posts_of (tr : list event) : list request :=
  match tr with
  | [] => []
  | EvPost req :: rest => req :: posts_of rest
  | _ :: rest => posts_of rest
  end.

Definition is_log_record (ev : event) : Prop :=
  ∃ lvl text page_no e, ev = EvLog lvl text page_no e.

(** The answer of the renderer is an error: the transport raises, or the
    status is from 400 to 599. *)
Definition render_fails (r : exn + response) (e : exn) : Prop :=
  checked r = Raised e.

(** ** More of the stub *)

Module StubExtras.

(** [url_for] in the stub: the static folder. *)
Definition stub_url_for (endpoint filename : string) : exn + string :=
  inr ("/" +:+ endpoint +:+ "/" +:+ filename).

(** The stub with a PDF library whose pages have no [add_overlay]. *)
Definition stub_without_add_overlay : World byte string := {|
  config_GOTENBERG_URL := None;
  TEMPLATE_FOLDER_PATH := "templates";
  http_post := Stub.stub_post 200 Stub.three_pages "";
  chunk_report := λ _ _ _ _, inr [x43];
  get_template := λ path, inr path;
  sandbox_from_string := λ s, inr s;
  template_render := Stub.stub_render;
  get_pdf_page_count := λ b,
    match Stub.stub_open b with
    | inr ps => inr (Z.of_nat (length ps))
    | inl e => inl e
    end;
  pdf_open := Stub.stub_open;
  pdf_pages_append := λ p, inr p;
  page_has_add_overlay := false;
  page_add_overlay := Stub.stub_add_overlay;
  pdf_save := λ ps, inr (x50 :: ps)
|}.

(** One dict whose [reportName] is a number. *)
Definition st_numbered : state :=
  State {[ 1%positive := {[ "reportName" := PyInt 5 ]} ]} [].

End StubExtras.

(** * The GC Notify provider

    A shallow embedding of [notify_delivery/services/providers/gc_notify.py]
    (class [GCNotify]).  The client of the GC Notify service, the two
    response models of [notify_api.models] and the string and base64
    functions of Python are gathered in a record [Env]; [send] threads the
    list of what was sent and logged. *)

Module GCNotify.

Inductive error : Type :=
| IndexError (msg : string)
| KeyError (key : string)
| OtherError (msg : string).

Record Attachment : Type := {
  file_name : string;
  file_bytes : list byte
}.

(** [attachments] is [None] or a list. *)
Record Content : Type := {
  subject : string;
  body : string;
  attachments : option (list Attachment)
}.

Record Notification : Type := {
  recipients : string;
  content : list Content
}.

(** The values of [current_app.config.get(key)], [None] for a missing key. *)
Record Config : Type := {
  GC_NOTIFY_API_KEY : option string;
  GC_NOTIFY_API_URL : option string;
  GC_NOTIFY_TEMPLATE_ID : option string;
  GC_NOTIFY_EMAIL_REPLY_TO_ID : option string;
  DEPLOYMENT_ENV : option string
}.

(** A value of the personalisation dict: a text, or an attached file. *)
Inductive personalisation_value : Type :=
| Text (s : string)
| File (file filename sending_method : string).

(** The keyword arguments of one [client.send_email_notification]. *)
Record email_request : Type := {
  email_address : string;
  template_id : option string;
  personalisation : gmap string personalisation_value;
  email_reply_to_id : option string
}.

Inductive send_event : Type :=
| Attempt (req : email_request)
| ErrorLogged (recipient : string) (e : error).

Record Env (client R RS : Type) : Type := {
  (** [str.lower()] and [str.upper()] *)
  str_lower : string → string;
  str_upper : string → string;
  (** [base64.b64encode(b).decode()] *)
  b64encode : list byte → string;
  (** [NotificationsAPIClient(api_key=k, base_url=u)] *)
  new_client : option string → option string → error + client;
  (** [client.send_email_notification(..)], given what was sent and logged
      so far: the response dict, or an error *)
  send_email_notification :
    client → list send_event → email_request → error + gmap string pyval;
  (** [NotificationSendResponse(response_id=i, recipient=r)] *)
  NotificationSendResponse : pyval → string → error + R;
  (** [NotificationSendResponses(recipients=l)] *)
  NotificationSendResponses : list R → error + RS
}.
Arguments str_lower {client R RS} _ _.
Arguments str_upper {client R RS} _ _.
Arguments b64encode {client R RS} _ _.
Arguments new_client {client R RS} _ _ _.
Arguments send_email_notification {client R RS} _ _ _ _.
Arguments NotificationSendResponse {client R RS} _ _ _.
Arguments NotificationSendResponses {client R RS} _ _.

(** The character [,] *)
Definition comma : Ascii.ascii :=
  match "," with
  | String c _ => c
  | EmptyString => Ascii.zero
  end.

(** [s.split(sep)] for a separator of one character *)
Fixpoint split_on (sep : Ascii.ascii) (s : string) : list string :=
  match s with
  | EmptyString => [EmptyString]
  | String c rest =>
      if Ascii.eqb c sep then EmptyString :: split_on sep rest
      else match split_on sep rest with
           | piece :: pieces => String c piece :: pieces
           | [] => [String c EmptyString]
           end
  end.

Section Send.

Context {client R RS : Type} (env : Env client R RS) (cfg : Config).

(** The subject, with the environment appended outside production. *)
Definition subject_for (c : Content) : string :=
  let deployment_env := str_lower env (default "production" (DEPLOYMENT_ENV cfg)) in
  if negb (String.eqb deployment_env "production")
  then subject c +:+ " - from " +:+ str_upper env deployment_env +:+ " environment"
  else subject c.

(** [f"attachment{idx}"] *)
Definition attachment_key (idx : nat) : string := "attachment" +:+ pretty idx.

Definition attachment_value (a : Attachment) : personalisation_value :=
  File (b64encode env (file_bytes a)) (file_name a) "attach".

(** [email_content.update({f"attachment{idx}": .. for idx, attachment in
    enumerate(attachments)})], from index [idx] on *)
Fixpoint update_attachments (idx : nat) (atts : list Attachment)
    (email_content : gmap string personalisation_value)
    : gmap string personalisation_value :=
  match atts with
  | [] => email_content
  | a :: rest =>
      update_attachments (S idx) rest
        (<[attachment_key idx := attachment_value a]> email_content)
  end.

Definition email_content_for (c : Content) : gmap string personalisation_value :=
  let email_content :=
    <["email_body" := Text (body c)]> ({[ "email_subject" := Text (subject_for c) ]}) in
  match attachments c with
  | Some (a :: rest) => update_attachments 0 (a :: rest) email_content
  | _ => email_content
  end.

Definition request_for (email_content : gmap string personalisation_value)
    (recipient : string) : email_request :=
  {| email_address := recipient;
     template_id := GC_NOTIFY_TEMPLATE_ID cfg;
     personalisation := email_content;
     email_reply_to_id := GC_NOTIFY_EMAIL_REPLY_TO_ID cfg |}.

(** The body of the [try] for one recipient: the response model, or the
    error that the [except] logs. *)
Definition send_one (c : client) (email_content : gmap string personalisation_value)
    (recipient : string) (tr : list send_event) : error + R :=
  match send_email_notification env c tr (request_for email_content recipient) with
  | inl e => inl e
  | inr response =>
      match response !! "id" with
      | None => inl (KeyError "id")
      | Some response_id => NotificationSendResponse env response_id recipient
      end
  end.

(** [for recipient in ..: try: .. except (HTTPError, Exception) as e: ..] *)
Fixpoint send_loop (c : client) (email_content : gmap string personalisation_value)
    (recipient_list : list string) (response_list : list R) (tr : list send_event)
    : list R * list send_event :=
  match recipient_list with
  | [] => (response_list, tr)
  | recipient :: rest =>
      let tr1 := tr ++ [Attempt (request_for email_content recipient)] in
      match send_one c email_content recipient tr with
      | inr r => send_loop c email_content rest (response_list ++ [r]) tr1
      | inl e =>
          send_loop c email_content rest response_list
            (tr1 ++ [ErrorLogged recipient e])
      end
  end.

Definition send (notification : Notification) (tr : list send_event)
    : (error + RS) * list send_event :=
  match new_client env (GC_NOTIFY_API_KEY cfg) (GC_NOTIFY_API_URL cfg) with
  | inl e => (inl e, tr)
  | inr c =>
      match content notification with
      | [] => (inl (IndexError "list index out of range"), tr)
      | content0 :: _ =>
          let email_content := email_content_for content0 in
          let '(response_list, tr') :=
            send_loop c email_content (split_on comma (recipients notification)) [] tr in
          (NotificationSendResponses env response_list, tr')
      end
  end.

End Send.

(** The requests attempted in a trace, and the recipients logged as failed. *)
Fixpoint attempts_of (tr : list send_event) : list email_request :=
  match tr with
  | [] => []
  | Attempt req :: rest => req :: attempts_of rest
  | ErrorLogged _ _ :: rest => attempts_of rest
  end.

Fixpoint failed_of (tr : list send_event) : list string :=
  match tr with
  | [] => []
  | Attempt _ :: rest => failed_of rest
  | ErrorLogged recipient _ :: rest => recipient :: failed_of rest
  end.

(** A stub: the service refuses the empty address and one named address. *)
Definition stub_env (refused : string) : Env unit (string * string) (list (string * string)) := {|
  str_lower := λ s, s;
  str_upper := λ s, s;
  b64encode := λ b, string_of_list_byte b;
  new_client := λ _ _, inr tt;
  send_email_notification := λ _ _ req,
    if String.eqb (email_address req) "" || String.eqb (email_address req) refused
    then inl (OtherError "BadRequestError")
    else inr {[ "id" := PyStr ("id-" +:+ email_address req) ]};
  NotificationSendResponse := λ i r,
    match i with
    | PyStr s => inr (s, r)
    | _ => inl (OtherError "ValidationError")
    end;
  NotificationSendResponses := λ l, inr l
|}.

Definition stub_cfg (deployment : option string) : Config := {|
  GC_NOTIFY_API_KEY := Some "key";
  GC_NOTIFY_API_URL := Some "https://api.notification.canada.ca";
  GC_NOTIFY_TEMPLATE_ID := Some "template";
  GC_NOTIFY_EMAIL_REPLY_TO_ID := None;
  DEPLOYMENT_ENV := deployment
|}.

End GCNotify.

(** The number of occurrences of a character in a string. *)
Fixpoint char_count (c : Ascii.ascii) (s : string) : nat :=
  match s with
  | EmptyString => 0
  | String c' rest => (if Ascii.eqb c' c then 1 else 0) + char_count c rest
  end.

(** A notification to four addresses, one refused and one empty, with two
    attachments; and one without content. *)
Definition stub_notification : GCNotify.Notification := {|
  GCNotify.recipients := "a@x.ca,bad@y.ca,,c@z.ca";
  GCNotify.content :=
    [ {| GCNotify.subject := "Hello";
         GCNotify.body := "Body";
         GCNotify.attachments :=
           Some [ {| GCNotify.file_name := "f.pdf"; GCNotify.file_bytes := [x50; x44] |};
                  {| GCNotify.file_name := "g.pdf"; GCNotify.file_bytes := [] |} ] |} ]
|}.

Definition stub_notification_without_content : GCNotify.Notification := {|
  GCNotify.recipients := "a@x.ca";
  GCNotify.content := []
|}.

(** * Properties *)

(** ** Running the monad *)

Lemma run_bind {A B} (m : M A) (f : A → M B) (s : state) :
  (m ≫= f) s = match m s with
               | (Returned a, s') => f a s'
               | (Raised e, s') => (Raised e, s')
               end.
Proof. reflexivity. Qed.

(** Unfolds the monad operations of a computation applied to a state. *)
Ltac run_monad :=
  cbv beta iota delta
    [mbind M_bind mret M_ret raise get_trace emit dict_read dict_copy
     dict_setitem args_or_empty];
  simpl.

Lemma with_trace_nil (s : state) : with_trace s [] = s.
Proof. destruct s. unfold with_trace. simpl. rewrite app_nil_r. reflexivity. Qed.

Lemma with_trace_app (s : state) (e1 e2 : list event) :
  with_trace (with_trace s e1) e2 = with_trace s (e1 ++ e2).
Proof. unfold with_trace. simpl. rewrite app_assoc. reflexivity. Qed.

Lemma error_status_spec (sc : Z) : error_status sc = true ↔ 400 ≤ sc < 600.
Proof. unfold error_status. rewrite andb_true_iff, Z.leb_le, Z.ltb_lt. tauto. Qed.

Lemma run_lift {A} (r : exn + A) (s : state) : lift r s = (outcome_of r, s).
Proof. destruct r; reflexivity. Qed.

Section RendererClient.

Context {page template : Type} (w : World page template).
Import ReportService.

Lemma run_post (req : request) (s : state) :
  Requests.post w req s =
    (outcome_of (http_post w (trace s) req), with_trace s [EvPost req]).
Proof.
  unfold Requests.post. rewrite !run_bind. simpl.
  destruct (http_post w (trace s) req); reflexivity.
Qed.

Lemma run_checked (resp : exn + response) (s : state) :
  (match outcome_of resp with
   | Returned r => (Requests.raise_for_status r ≫= λ _, mret (content r)) s
   | Raised e => (Raised e, s)
   end) = (checked resp, s).
Proof.
  destruct resp as [e|r]; simpl; [reflexivity|].
  unfold Requests.raise_for_status, error_status. rewrite run_bind.
  destruct ((400 <=? status_code r) && (status_code r <? 600)); reflexivity.
Qed.

Lemma run_generate_pdf (html : string) (flag : bool) (footer : option string) (s : state) :
  generate_pdf w html flag footer s =
    (checked (http_post w (trace s) (pdf_request w html flag footer)),
     with_trace s [EvPost (pdf_request w html flag footer)]).
Proof.
  unfold generate_pdf. rewrite run_bind, run_post. apply run_checked.
Qed.

Lemma run_generate_single_footer_pdf (t : template) (l : loc) (cp tp : Z) (s : state) :
  generate_single_footer_pdf w t (Some l) cp tp s =
    let ctx := page_context (default ∅ (heap s !! l)) cp tp in
    let s1 := State (<[fresh (dom (heap s)) := ctx]> (heap s)) (trace s) in
    match template_render w t ctx with
    | inl e => (Raised e, s1)
    | inr html =>
        (checked (http_post w (trace s) (footer_request w html)),
         with_trace s1 [EvPost (footer_request w html)])
    end.
Proof.
  unfold generate_single_footer_pdf, dict_copy, dict_setitem, dict_read.
  rewrite !run_bind. simpl. rewrite !lookup_insert_eq. simpl.
  rewrite !insert_insert_eq. fold (page_context (default ∅ (heap s !! l)) cp tp).
  rewrite run_lift.
  destruct (template_render w t _) as [e|html]; simpl; [reflexivity|].
  rewrite run_bind, run_post. apply run_checked.
Qed.

Lemma checked_error (resp : response) :
  400 ≤ status_code resp < 600 →
  checked (inr resp) = Raised (HTTPError (status_code resp)).
Proof.
  intros H. apply error_status_spec in H. unfold checked. rewrite H. reflexivity.
Qed.

Lemma checked_ok (resp : response) :
  ¬ (400 ≤ status_code resp < 600) →
  checked (inr resp) = Returned (content resp).
Proof.
  intros H. unfold checked.
  destruct (error_status (status_code resp)) eqn:E; [|reflexivity].
  apply error_status_spec in E. contradiction.
Qed.

End RendererClient.

(** ** The renderer client (C9) *)

Section RendererContract.

Context {page template : Type} (w : World page template).
Import ReportService.

Lemma wants_footer_spec (flag : bool) (footer : option string) :
  wants_footer flag footer = true ↔ flag = true ∧ ∃ f, footer = Some f ∧ f ≠ "".
Proof.
  unfold wants_footer. rewrite andb_true_iff. split.
  - intros [-> H]. split; [reflexivity|].
    destruct footer as [f|]; [|discriminate]. exists f. split; [reflexivity|].
    intros ->. discriminate.
  - intros [-> (f & -> & Hf)]. split; [reflexivity|].
    apply negb_true_iff, String.eqb_neq. exact Hf.
Qed.

(** C9, as amended: [generate_pdf] posts the two parts [index.html] and
    [footer.html], with the instruction [footer = footer.html], exactly
    when [generate_page_number] is true and [footer_html] is a non-empty
    string, and the single part [index.html] otherwise;
    [generate_single_footer_pdf] always posts the two parts and the
    instruction.  Each makes one post.  When the transport fails its error
    is raised; when the answer has a status from 400 to 599 an [HTTPError]
    with that status is raised; for any other status the bytes of the
    answer are returned. *)
Theorem renderer_client_contract :
  (∀ html flag footer s,
     let req := pdf_request w html flag footer in
     generate_pdf w html flag footer s
       = (checked (http_post w (trace s) req), with_trace s [EvPost req])
     ∧ (if wants_footer flag footer
        then files req = [html_part "index.html" html;
                          html_part "footer.html" (default "" footer)]
             ∧ data req = [("footer", "footer.html")]
        else files req = [html_part "index.html" html] ∧ data req = []))
  ∧ (∀ flag footer,
       wants_footer flag footer = true
       ↔ flag = true ∧ ∃ f, footer = Some f ∧ f ≠ "")
  ∧ (∀ t l cp tp s html,
       template_render w t (page_context (default ∅ (heap s !! l)) cp tp) = inr html →
       let req := footer_request w html in
       let r := generate_single_footer_pdf w t (Some l) cp tp s in
       fst r = checked (http_post w (trace s) req)
       ∧ trace (snd r) = trace s ++ [EvPost req]
       ∧ files req = [html_part "index.html" "<!DOCTYPE html>";
                      html_part "footer.html" html]
       ∧ data req = [("footer", "footer.html")])
  ∧ (∀ resp, 400 ≤ status_code resp < 600 →
       checked (inr resp) = Raised (HTTPError (status_code resp)))
  ∧ (∀ resp, ¬ (400 ≤ status_code resp < 600) →
       checked (inr resp) = Returned (content resp))
  ∧ (∀ e, checked (inl e) = Raised e).
Proof.
  split; [|split; [|split; [|split; [|split]]]].
  - intros html flag footer s req. split; [apply run_generate_pdf|].
    subst req. unfold pdf_request.
    destruct (wants_footer flag footer); simpl; split; reflexivity.
  - apply wants_footer_spec.
  - intros t l cp tp s html Hr req r. subst r.
    rewrite run_generate_single_footer_pdf. simpl. rewrite Hr. simpl.
    repeat split; reflexivity.
  - apply checked_error.
  - apply checked_ok.
  - reflexivity.
Qed.

End RendererContract.

(** A 404 answer to a render with a footer is raised. *)
Lemma renderer_client_contract_witness :
  400 ≤ 404 < 600
  ∧ checked (inr (Response 404 Stub.three_pages)) = Raised (HTTPError 404).
Proof.
  split; [lia|].
  apply (proj1 (proj2 (proj2 (proj2
           (renderer_client_contract (Stub.stub 404 Stub.three_pages ""))))) 
           (Response 404 Stub.three_pages)).
  simpl. lia.
Defined.

(** C9 as stated fails twice: a render given footer HTML but no page
    numbering posts the single part [index.html] and no instruction; and a
    304 answer, which is not 2xx, is returned, not raised. *)
Lemma renderer_client_claim_fails :
  (∃ req,
     trace (snd (ReportService.generate_pdf (Stub.stub 200 Stub.three_pages "")
                   "<p>x</p>" false (Some "<p>f</p>") Stub.st0)) = [EvPost req]
     ∧ map filename (files req) = ["index.html"] ∧ data req = [])
  ∧ fst (ReportService.generate_pdf (Stub.stub 304 Stub.three_pages "")
           "<p>x</p>" false None Stub.st0) = Returned Stub.three_pages.
Proof.
  split.
  - eexists. split; [vm_compute; reflexivity|]. split; reflexivity.
  - vm_compute. reflexivity.
Qed.

(** ** Routing (C1, C10) *)

Section Routing.

Context {page template : Type} (w : World page template).
Import ReportService.

Lemma is_statement_name (name : option string) :
  is_statement (name_value name)
    = inr (contains statement_marker (default "" name)).
Proof.
  destruct name as [n|]; simpl; [|reflexivity].
  unfold is_statement, or_empty_str. simpl.
  destruct (String.eqb n "") eqn:E; simpl; [|reflexivity].
  apply String.eqb_eq in E. subst n. reflexivity.
Qed.

Lemma run_has_grouped_invoices (args : option loc) (s : state) :
  has_grouped_invoices args s
    = (Returned (truthy (dict_get (args_entries s args) "groupedInvoices")), s).
Proof. destruct args; reflexivity. Qed.

Lemma run_create_chunk_report (tn : pyval) (args : option loc) (flag : bool) (s : state) :
  create_chunk_report w tn args flag s
    = (outcome_of (chunk_report w (trace s) tn (args_dict s args) flag),
       with_trace s [EvChunk tn args flag]).
Proof.
  unfold create_chunk_report. destruct args as [l|]; run_monad;
    destruct (chunk_report w (trace s) tn _ flag); reflexivity.
Qed.

Lemma run_finalize_pdf (tn : pyval) (args : option loc) (html : string)
    (flag b : bool) (s : state) :
  is_statement tn = inr b →
  _finalize_pdf w tn args html flag s =
    if b && truthy (dict_get (args_entries s args) "groupedInvoices")
    then create_chunk_report w tn args flag s
    else if b && flag
         then _generate_pdf_with_page_numbers w tn args html s
         else generate_pdf w html flag None s.
Proof.
  intros Hb. unfold _finalize_pdf.
  rewrite run_bind, run_lift, Hb. simpl.
  rewrite run_bind, run_has_grouped_invoices.
  destruct (b && truthy _); [reflexivity|].
  destruct (b && flag); reflexivity.
Qed.

Lemma truthy_collection (v : pyval) :
  v = PyNone ∨ is_collection v = true → truthy v = nonempty v.
Proof.
  intros [->|H]; [reflexivity|].
  destruct v as [| | | |[|]|[|]]; try discriminate; reflexivity.
Qed.

(** C1: the router decides in this order.  For a template name that is a
    string or [None], and template arguments whose [groupedInvoices] entry
    is absent, [None] or a collection: if the name contains
    [statement_report] and the collection is non-empty, the result is the
    answer of the chunking collaborator, and the only outward call is that
    one (no post to the renderer); else if the name contains
    [statement_report] and [generate_page_number] is true, the multi-pass
    flow runs; else there is one direct render, whose form has the single
    part [index.html] and no footer instruction. *)
Theorem finalize_pdf_routing (name : option string) (args : option loc)
    (html : string) (flag : bool) (s : state) :
  let tn := name_value name in
  let is_stmt := contains statement_marker (default "" name) in
  let grouped := dict_get (args_entries s args) "groupedInvoices" in
  grouped = PyNone ∨ is_collection grouped = true →
  if is_stmt && nonempty grouped then
    _finalize_pdf w tn args html flag s
      = (outcome_of (chunk_report w (trace s) tn (args_dict s args) flag),
         with_trace s [EvChunk tn args flag])
  else if is_stmt && flag then
    _finalize_pdf w tn args html flag s
      = _generate_pdf_with_page_numbers w tn args html s
  else
    let req := Request (gotenberg_endpoint w) [html_part "index.html" html] [] 120 in
    _finalize_pdf w tn args html flag s
      = (checked (http_post w (trace s) req), with_trace s [EvPost req]).
Proof.
  intros tn is_stmt grouped Hty.
  rewrite (run_finalize_pdf tn args html flag is_stmt s (is_statement_name name)).
  fold grouped. rewrite (truthy_collection grouped Hty).
  destruct (is_stmt && nonempty grouped).
  - apply run_create_chunk_report.
  - destruct (is_stmt && flag); [reflexivity|].
    rewrite run_generate_pdf. unfold pdf_request, wants_footer.
    rewrite andb_false_r. reflexivity.
Qed.

(** C10, as amended: routing never raises for a name that is a string or
    [None].  A [None] or empty name is not a statement report, and the
    request goes to the single direct render whatever the template
    arguments are.  Template arguments that are [None] carry no grouped
    invoices, so the chunking branch is not taken: the request goes to the
    multi-pass flow when the name contains [statement_report] and
    [generate_page_number] is true, and to the single direct render
    otherwise.  [create_report_from_template] uses the empty name when the
    dict has no [reportName], and so renders directly. *)
Theorem finalize_pdf_absent_inputs :
  (∀ name, ∃ b, is_statement (name_value name) = inr b)
  ∧ (∀ name args html flag s,
       name = None ∨ name = Some "" →
       is_statement (name_value name) = inr false
       ∧ _finalize_pdf w (name_value name) args html flag s
           = generate_pdf w html flag None s)
  ∧ (∀ name html flag s,
       has_grouped_invoices None s = (Returned false, s)
       ∧ _finalize_pdf w (name_value name) None html flag s
           = if contains statement_marker (default "" name) && flag
             then _generate_pdf_with_page_numbers w (name_value name) None html s
             else generate_pdf w html flag None s)
  ∧ (∀ ts l d flag s t html,
       heap s !! l = Some d →
       d !! "reportName" = None →
       sandbox_from_string w ts = inr t →
       template_render w t d = inr html →
       create_report_from_template w ts (Some l) flag s
         = _finalize_pdf w (PyStr "") (Some l) html flag s
       ∧ create_report_from_template w ts (Some l) flag s
         = generate_pdf w html flag None s).
Proof.
  split; [|split; [|split]].
  - intros name. eexists. apply is_statement_name.
  - intros name args html flag s Hn.
    assert (Hs : is_statement (name_value name) = inr false).
    { rewrite is_statement_name. destruct Hn as [->| ->]; reflexivity. }
    split; [exact Hs|].
    rewrite (run_finalize_pdf _ args html flag false s Hs). reflexivity.
  - intros name html flag s. split; [reflexivity|].
    rewrite (run_finalize_pdf _ None html flag _ s (is_statement_name name)).
    simpl. rewrite andb_false_r. reflexivity.
  - intros ts l d flag s t html Hl Hd Ht Hr.
    assert (E : create_report_from_template w ts (Some l) flag s
                = _finalize_pdf w (PyStr "") (Some l) html flag s).
    { unfold create_report_from_template.
      rewrite run_bind, run_lift, Ht. simpl.
      unfold render_args, dict_read. rewrite !run_bind. simpl.
      rewrite Hl. simpl. rewrite run_lift, Hr. simpl.
      rewrite run_bind. simpl. rewrite Hl. simpl.
      unfold dict_get_default. rewrite Hd. reflexivity. }
    split; [exact E|]. rewrite E.
    rewrite (run_finalize_pdf _ (Some l) html flag false s); reflexivity.
Qed.

End Routing.

(** A statement report with a group of invoices goes to the chunking
    collaborator: its bytes come back and nothing is posted. *)
Lemma finalize_pdf_routing_witness :
  ReportService._finalize_pdf (Stub.stub 200 Stub.three_pages "")
    (PyStr "monthly_statement_report") (Some 2%positive) "<html/>" true Stub.st0
  = (Returned [x43],
     with_trace Stub.st0
       [EvChunk (PyStr "monthly_statement_report") (Some 2%positive) true]).
Proof.
  exact (finalize_pdf_routing (Stub.stub 200 Stub.three_pages "")
           (Some "monthly_statement_report") (Some 2%positive) "<html/>" true
           Stub.st0 (or_intror eq_refl)).
Defined.

(** A request without a name is rendered directly. *)
Lemma finalize_pdf_absent_inputs_witness :
  ReportService._finalize_pdf (Stub.stub 200 Stub.three_pages "")
    PyNone None "<html/>" true Stub.st0
  = ReportService.generate_pdf (Stub.stub 200 Stub.three_pages "")
      "<html/>" true None Stub.st0.
Proof.
  apply (proj1 (proj2 (finalize_pdf_absent_inputs (Stub.stub 200 Stub.three_pages "")))
           None None "<html/>" true Stub.st0).
  left. reflexivity.
Defined.

(** C10 as stated fails: with [template_args] [None], a statement-report
    name and page numbering, the request is not rendered directly.  It goes
    to the multi-pass flow, which raises on the first footer, where the
    direct render returns the document. *)
Lemma finalize_pdf_none_args_not_direct :
  fst (ReportService._finalize_pdf (Stub.stub 200 Stub.three_pages "")
         (PyStr "statement_report") None "<html/>" true Stub.st0)
    = Raised (AttributeError "'NoneType' object has no attribute 'copy'")
  ∧ fst (ReportService.generate_pdf (Stub.stub 200 Stub.three_pages "")
           "<html/>" true None Stub.st0)
    = Returned Stub.three_pages.
Proof. split; vm_compute; reflexivity. Qed.

(** ** The overlay pass (C3, C4, C5, C7) *)

Section Overlay.

Context {page template : Type} (w : World page template).
Import ReportService.

Lemma run_overlay_page_content (c overlay_page : page) (s : state) :
  _overlay_page_content w c overlay_page s =
    if page_has_add_overlay w
    then match page_add_overlay w c overlay_page with
         | inl e => (Returned c,
                     with_trace s [EvLog WARNING "Could not overlay page content: " None e])
         | inr c' => (Returned c', s)
         end
    else (Returned c, s).
Proof.
  unfold _overlay_page_content, try_except, log_warning.
  destruct (page_has_add_overlay w); [|reflexivity].
  destruct (page_add_overlay w c overlay_page); reflexivity.
Qed.

Lemma run_overlay_footer (footer_pdfs : list (list byte)) (i : nat) (c : page)
    (footer_bytes : list byte) (s : state) :
  footer_pdfs !! i = Some footer_bytes →
  overlay_footer w i c footer_bytes s =
    (Returned (page_after w footer_pdfs i c),
     with_trace s (page_warnings w footer_pdfs i c)).
Proof.
  intros Hf. unfold overlay_footer, try_except, page_after, page_warnings.
  rewrite Hf, run_bind, run_lift.
  destruct (pdf_open w footer_bytes) as [e|[|fp rest]]; simpl.
  - reflexivity.
  - rewrite with_trace_nil. reflexivity.
  - rewrite run_overlay_page_content.
    destruct (page_has_add_overlay w).
    + destruct (page_add_overlay w c fp); [reflexivity|].
      rewrite with_trace_nil. reflexivity.
    + rewrite with_trace_nil. reflexivity.
Qed.

Lemma run_overlay_step (footer_pdfs : list (list byte)) (i : nat) (p : page) (s : state) :
  overlay_step w footer_pdfs i p s =
    match pdf_pages_append w p with
    | inl e => (Raised e, s)
    | inr c => (Returned (page_after w footer_pdfs i c),
                with_trace s (page_warnings w footer_pdfs i c))
    end.
Proof.
  unfold overlay_step. rewrite run_bind, run_lift.
  destruct (pdf_pages_append w p) as [e|c]; simpl; [reflexivity|].
  destruct (footer_pdfs !! i) as [fb|] eqn:Hf.
  - apply run_overlay_footer. exact Hf.
  - unfold page_after, page_warnings. rewrite Hf, with_trace_nil. reflexivity.
Qed.

(** When every main page can be copied, the loop composes all of them. *)
Lemma run_overlay_loop (footer_pdfs : list (list byte)) (main_pages copies : list page) :
  Forall2 (λ p c, pdf_pages_append w p = inr c) main_pages copies →
  ∀ i acc s,
    overlay_loop w footer_pdfs i main_pages acc s =
      (Returned (acc ++ pages_after w footer_pdfs i copies),
       with_trace s (warnings_after w footer_pdfs i copies)).
Proof.
  induction 1 as [|p c ps cs Hp _ IH]; intros i acc s; simpl.
  - rewrite app_nil_r, with_trace_nil. reflexivity.
  - rewrite run_bind, run_overlay_step, Hp, IH, with_trace_app.
    rewrite <- app_assoc. reflexivity.
Qed.

(** A loop that returns has added one page per main page. *)
Lemma overlay_loop_length (footer_pdfs : list (list byte)) (main_pages : list page) :
  ∀ i acc s result s',
    overlay_loop w footer_pdfs i main_pages acc s = (Returned result, s') →
    length result = (length acc + length main_pages)%nat.
Proof.
  induction main_pages as [|p ps IH]; intros i acc s result s'; simpl.
  - intros [= <- _]. lia.
  - rewrite run_bind.
    destruct (overlay_step w footer_pdfs i p s) as [[c|e] s1]; [|discriminate].
    intros H. apply IH in H. rewrite length_app in H. simpl in H. lia.
Qed.

Lemma length_pages_after (footer_pdfs : list (list byte)) (copies : list page) :
  ∀ i, length (pages_after w footer_pdfs i copies) = length copies.
Proof. induction copies as [|c cs IH]; intros i; simpl; [|rewrite IH]; reflexivity. Qed.

Lemma lookup_pages_after (footer_pdfs : list (list byte)) (copies : list page) :
  ∀ i j c, copies !! j = Some c →
    pages_after w footer_pdfs i copies !! j
      = Some (page_after w footer_pdfs (i + j) c).
Proof.
  induction copies as [|c0 cs IH]; intros i j c; [discriminate|].
  destruct j as [|j]; simpl.
  - intros [= ->]. rewrite Nat.add_0_r. reflexivity.
  - intros H. rewrite (IH (S i) j c H). do 2 f_equal. lia.
Qed.

Lemma elem_of_warnings_after (footer_pdfs : list (list byte)) (copies : list page) :
  ∀ i j c ev, copies !! j = Some c →
    ev ∈ page_warnings w footer_pdfs (i + j) c →
    ev ∈ warnings_after w footer_pdfs i copies.
Proof.
  induction copies as [|c0 cs IH]; intros i j c ev; [discriminate|].
  destruct j as [|j]; simpl; rewrite elem_of_app.
  - intros [= ->]. rewrite Nat.add_0_r. auto.
  - intros H Hev. right. apply (IH (S i) j c ev H).
    replace (S i + j)%nat with (i + S j)%nat by lia. exact Hev.
Qed.

Lemma page_warnings_are_warnings (footer_pdfs : list (list byte)) (i : nat) (c : page) :
  Forall is_warning (page_warnings w footer_pdfs i c).
Proof.
  unfold page_warnings.
  destruct (footer_pdfs !! i) as [fb|]; [|constructor].
  destruct (pdf_open w fb) as [e|[|fp rest]].
  - repeat constructor. repeat eexists.
  - constructor.
  - destruct (page_has_add_overlay w); [|constructor].
    destruct (page_add_overlay w c fp); [|constructor].
    repeat constructor. repeat eexists.
Qed.

Lemma warnings_after_are_warnings (footer_pdfs : list (list byte)) (copies : list page) :
  ∀ i, Forall is_warning (warnings_after w footer_pdfs i copies).
Proof.
  induction copies as [|c cs IH]; intros i; simpl; [constructor|].
  apply Forall_app. split; [apply page_warnings_are_warnings|apply IH].
Qed.

(** The loop only looks at the footers of the pages it visits. *)
Lemma overlay_loop_take (footer_pdfs : list (list byte)) (n : nat) (main_pages : list page) :
  ∀ i acc s,
    (i + length main_pages ≤ n)%nat →
    overlay_loop w (take n footer_pdfs) i main_pages acc s
      = overlay_loop w footer_pdfs i main_pages acc s.
Proof.
  induction main_pages as [|p ps IH]; intros i acc s Hn; simpl; [reflexivity|].
  simpl in Hn. rewrite !run_bind.
  assert (Hs : overlay_step w (take n footer_pdfs) i p s
               = overlay_step w footer_pdfs i p s).
  { unfold overlay_step. rewrite lookup_take_lt by lia. reflexivity. }
  rewrite Hs.
  destruct (overlay_step w footer_pdfs i p s) as [[c|e] s1]; [|reflexivity].
  apply IH. lia.
Qed.

Lemma run_overlay_body (main : list byte) (footer_pdfs : list (list byte)) (s : state) :
  overlay_body w main footer_pdfs s =
    match pdf_open w main with
    | inl e => (Raised e, s)
    | inr main_pages =>
        match overlay_loop w footer_pdfs 0 main_pages [] s with
        | (Returned result, s') => (outcome_of (pdf_save w result), s')
        | (Raised e, s') => (Raised e, s')
        end
    end.
Proof.
  unfold overlay_body. rewrite run_bind, run_lift.
  destruct (pdf_open w main) as [e|ps]; simpl; [reflexivity|].
  rewrite run_bind.
  destruct (overlay_loop w footer_pdfs 0 ps [] s) as [[r|e] s']; [|reflexivity].
  apply run_lift.
Qed.

Lemma run_overlay_footer_pdfs (main : list byte) (footer_pdfs : list (list byte)) (s : state) :
  _overlay_footer_pdfs_on_main_pdf w main footer_pdfs s =
    match overlay_body w main footer_pdfs s with
    | (Returned out, s') => (Returned out, s')
    | (Raised e, s') =>
        (Returned main, with_trace s' [EvLog ERROR "Error overlaying footer PDFs: " None e])
    end.
Proof.
  unfold _overlay_footer_pdfs_on_main_pdf, try_except.
  destruct (overlay_body w main footer_pdfs s) as [[out|e] s']; reflexivity.
Qed.

End Overlay.

Section OverlayClaims.

Context {page template : Type} (w : World page template).
Import ReportService.

(** C3: when the overlay pass completes (the body of its [try] returns),
    the document returned was saved from as many pages as the main
    document has: one per main page.  For a PDF library whose saved
    documents reopen with the pages saved, the page count of the result is
    the page count of the first-pass main document. *)
Theorem overlay_preserves_page_count (main : list byte)
    (footer_pdfs : list (list byte)) (s : state) (out : list byte) (s' : state) :
  save_keeps_page_count w →
  overlay_body w main footer_pdfs s = (Returned out, s') →
  _overlay_footer_pdfs_on_main_pdf w main footer_pdfs s = (Returned out, s')
  ∧ ∃ main_pages result_pages,
      pdf_open w main = inr main_pages
      ∧ pdf_save w result_pages = inr out
      ∧ length result_pages = length main_pages
      ∧ page_count w out = page_count w main.
Proof.
  intros Hsave Hbody. split.
  - rewrite run_overlay_footer_pdfs, Hbody. reflexivity.
  - rewrite run_overlay_body in Hbody.
    destruct (pdf_open w main) as [e|main_pages] eqn:Hopen; [discriminate|].
    destruct (overlay_loop w footer_pdfs 0 main_pages [] s) as [[result|e] s1] eqn:Hloop;
      [|discriminate].
    destruct (pdf_save w result) as [e|b] eqn:Hs; [discriminate|].
    simpl in Hbody. injection Hbody as -> ->.
    apply overlay_loop_length in Hloop. simpl in Hloop.
    exists main_pages, result. repeat split; try assumption.
    rewrite (Hsave result out Hs). unfold page_count. rewrite Hopen.
    f_equal. exact Hloop.
Qed.

(** C4: a footer that cannot be opened or merged costs its own page the
    overlay and nothing else.  When the main pages are copied, the loop
    returns a page for every main page and logs only warnings.  A page
    whose footer document does not open, or whose merge raises, is in the
    result as its plain copy, with a warning logged; a page whose footer
    merges is in the result overlaid.  The pass then returns the saved
    result, and never raises to its caller. *)
Theorem overlay_failures_isolated (footer_pdfs : list (list byte))
    (main_pages copies : list page) (s : state) :
  copied w main_pages copies →
  ∃ result_pages warnings,
    overlay_loop w footer_pdfs 0 main_pages [] s
      = (Returned result_pages, with_trace s warnings)
    ∧ length result_pages = length main_pages
    ∧ Forall is_warning warnings
    ∧ (∀ i c fb e,
         copies !! i = Some c → footer_pdfs !! i = Some fb →
         pdf_open w fb = inl e →
         result_pages !! i = Some c
         ∧ EvLog WARNING "Could not overlay footer on page "
             (Some (Z.of_nat i + 1)) e ∈ warnings)
    ∧ (∀ i c fb fp rest e,
         copies !! i = Some c → footer_pdfs !! i = Some fb →
         pdf_open w fb = inr (fp :: rest) →
         page_has_add_overlay w = true →
         page_add_overlay w c fp = inl e →
         result_pages !! i = Some c
         ∧ EvLog WARNING "Could not overlay page content: " None e ∈ warnings)
    ∧ (∀ i c fb fp rest c',
         copies !! i = Some c → footer_pdfs !! i = Some fb →
         pdf_open w fb = inr (fp :: rest) →
         page_has_add_overlay w = true →
         page_add_overlay w c fp = inr c' →
         result_pages !! i = Some c')
    ∧ (∀ main,
         pdf_open w main = inr main_pages →
         _overlay_footer_pdfs_on_main_pdf w main footer_pdfs s =
           match pdf_save w result_pages with
           | inr out => (Returned out, with_trace s warnings)
           | inl e => (Returned main, with_trace s (warnings ++ [overlay_error e]))
           end).
Proof.
  intros Hc.
  exists (pages_after w footer_pdfs 0 copies), (warnings_after w footer_pdfs 0 copies).
  pose proof (run_overlay_loop w footer_pdfs main_pages copies Hc 0%nat [] s) as Hloop.
  simpl in Hloop.
  split; [exact Hloop|].
  split; [rewrite length_pages_after; symmetry; exact (Forall2_length _ _ _ Hc)|].
  split; [apply warnings_after_are_warnings|].
  split; [|split; [|split]].
  - intros i c fb e Hi Hf Ho.
    rewrite (lookup_pages_after w footer_pdfs copies 0 i c Hi). simpl. split.
    + unfold page_after. rewrite Hf, Ho. reflexivity.
    + apply (elem_of_warnings_after w footer_pdfs copies 0 i c _ Hi). simpl.
      unfold page_warnings. rewrite Hf, Ho. apply list_elem_of_singleton. reflexivity.
  - intros i c fb fp rest e Hi Hf Ho Hh Ha.
    rewrite (lookup_pages_after w footer_pdfs copies 0 i c Hi). simpl. split.
    + unfold page_after. rewrite Hf, Ho, Hh, Ha. reflexivity.
    + apply (elem_of_warnings_after w footer_pdfs copies 0 i c _ Hi). simpl.
      unfold page_warnings. rewrite Hf, Ho, Hh, Ha.
      apply list_elem_of_singleton. reflexivity.
  - intros i c fb fp rest c' Hi Hf Ho Hh Ha.
    rewrite (lookup_pages_after w footer_pdfs copies 0 i c Hi). simpl.
    unfold page_after. rewrite Hf, Ho, Hh, Ha. reflexivity.
  - intros main Hopen.
    rewrite run_overlay_footer_pdfs, run_overlay_body, Hopen, Hloop.
    destruct (pdf_save w _) as [e|out]; simpl; [|reflexivity].
    rewrite with_trace_app. reflexivity.
Qed.

(** C5: [_overlay_footer_pdfs_on_main_pdf] never raises.  Whenever the
    body of its [try] raises, it logs an error and returns the bytes of
    the main document as they were given: when the main document does not
    open, when assembling the result raises, and when saving it raises. *)
Theorem overlay_never_raises (main : list byte) (footer_pdfs : list (list byte))
    (s : state) :
  ∃ out s',
    _overlay_footer_pdfs_on_main_pdf w main footer_pdfs s = (Returned out, s')
    ∧ (∀ e s1,
         overlay_body w main footer_pdfs s = (Raised e, s1) →
         out = main ∧ s' = with_trace s1 [overlay_error e])
    ∧ (∀ e, pdf_open w main = inl e → out = main)
    ∧ (∀ main_pages e s1,
         pdf_open w main = inr main_pages →
         overlay_loop w footer_pdfs 0 main_pages [] s = (Raised e, s1) →
         out = main)
    ∧ (∀ main_pages result s1 e,
         pdf_open w main = inr main_pages →
         overlay_loop w footer_pdfs 0 main_pages [] s = (Returned result, s1) →
         pdf_save w result = inl e →
         out = main).
Proof.
  rewrite run_overlay_footer_pdfs.
  destruct (overlay_body w main footer_pdfs s) as [[out|e] s1] eqn:Hbody.
  - exists out, s1. split; [reflexivity|].
    rewrite run_overlay_body in Hbody.
    split; [intros ? ? [=]|]. split; [|split].
    + intros e He. rewrite He in Hbody. discriminate.
    + intros ps e s2 Ho Hl. rewrite Ho, Hl in Hbody. discriminate.
    + intros ps r s2 e Ho Hl Hs. rewrite Ho, Hl, Hs in Hbody. discriminate.
  - exists main, (with_trace s1 [overlay_error e]). split; [reflexivity|].
    split; [intros ? ? [= <- <-]; split; reflexivity|].
    repeat split; reflexivity.
Qed.

(** C7: when the footers and the main pages differ in number, nothing is
    raised for it.  The footers past the last main page are not used: the
    pass gives the same result and the same log without them.  A main page
    past the last footer is copied and left as it is, and nothing is
    logged for it. *)
Theorem overlay_count_divergence (main : list byte) (footer_pdfs : list (list byte))
    (main_pages : list page) (s : state) :
  pdf_open w main = inr main_pages →
  _overlay_footer_pdfs_on_main_pdf w main (take (length main_pages) footer_pdfs) s
    = _overlay_footer_pdfs_on_main_pdf w main footer_pdfs s
  ∧ (∀ i p s1,
       (length footer_pdfs ≤ i)%nat →
       overlay_step w footer_pdfs i p s1 = (outcome_of (pdf_pages_append w p), s1))
  ∧ (∀ copies,
       copied w main_pages copies →
       ∃ result_pages warnings,
         overlay_loop w footer_pdfs 0 main_pages [] s
           = (Returned result_pages, with_trace s warnings)
         ∧ length result_pages = length main_pages
         ∧ Forall is_warning warnings
         ∧ ∀ i c, copies !! i = Some c → (length footer_pdfs ≤ i)%nat →
                  result_pages !! i = Some c).
Proof.
  intros Hopen. split; [|split].
  - rewrite !run_overlay_footer_pdfs, !run_overlay_body, Hopen.
    rewrite overlay_loop_take by (simpl; lia). reflexivity.
  - intros i p s1 Hi. rewrite run_overlay_step.
    apply lookup_ge_None in Hi.
    destruct (pdf_pages_append w p) as [e|c]; simpl; [reflexivity|].
    unfold page_after, page_warnings. rewrite Hi, with_trace_nil. reflexivity.
  - intros copies Hc.
    exists (pages_after w footer_pdfs 0 copies), (warnings_after w footer_pdfs 0 copies).
    split; [exact (run_overlay_loop w footer_pdfs main_pages copies Hc 0%nat [] s)|].
    split; [rewrite length_pages_after; symmetry; exact (Forall2_length _ _ _ Hc)|].
    split; [apply warnings_after_are_warnings|].
    intros i c Hi Hlen.
    rewrite (lookup_pages_after w footer_pdfs copies 0 i c Hi). simpl.
    apply lookup_ge_None in Hlen. unfold page_after. rewrite Hlen. reflexivity.
Qed.

End OverlayClaims.

(** ** Footer generation (C2, C8) *)

Section Footers.

Context {page template : Type} (w : World page template).
Import ReportService.

Lemma fresh_ne (h : gmap loc (gmap string pyval)) (l : loc) (d : gmap string pyval) :
  h !! l = Some d → fresh (dom h) ≠ l.
Proof.
  intros Hl E. apply (is_fresh (dom h)). rewrite E.
  apply elem_of_dom. exists d. exact Hl.
Qed.

(** One footer call leaves every dict that existed before as it was. *)
Lemma single_footer_frame (t : template) (args : option loc) (cp tp : Z)
    (s : state) (l : loc) (d : gmap string pyval) :
  heap s !! l = Some d →
  heap (snd (generate_single_footer_pdf w t args cp tp s)) !! l = Some d.
Proof.
  intros Hl. destruct args as [l0|]; [|exact Hl].
  rewrite run_generate_single_footer_pdf. simpl.
  destruct (template_render w t _); simpl;
    (rewrite lookup_insert_ne by (eapply fresh_ne; exact Hl)); exact Hl.
Qed.

Lemma footer_loop_frame (t : template) (args : option loc) (n : Z)
    (l : loc) (d : gmap string pyval) (indices : list Z) :
  ∀ acc s,
    heap s !! l = Some d →
    heap (snd (footer_loop w t args n indices acc s)) !! l = Some d.
Proof.
  induction indices as [|i rest IH]; intros acc s Hl; simpl; [exact Hl|].
  rewrite run_bind.
  pose proof (single_footer_frame t args (i + 1) n s l d Hl) as H1.
  destruct (generate_single_footer_pdf w t args (i + 1) n s) as [[b|e] s1];
    simpl in H1; [apply IH; exact H1|exact H1].
Qed.

(** The loop, when the template renders and the renderer answers. *)
Lemma run_footer_loop (t : template) (l : loc) (d : gmap string pyval) (n : Z)
    (indices : list Z) :
  renderer_succeeds w →
  (∀ i, i ∈ indices → ∃ html, template_render w t (page_context d (i + 1) n) = inr html) →
  ∀ acc s,
    heap s !! l = Some d →
    ∃ docs s',
      footer_loop w t (Some l) n indices acc s = (Returned (acc ++ docs), s')
      ∧ length docs = length indices
      ∧ trace s' = trace s ++ ((λ i, footer_post w t d n (i + 1)) <$> indices)
      ∧ ∀ j i, indices !! j = Some i →
          ∃ resp,
            http_post w (trace s ++ take j ((λ i, footer_post w t d n (i + 1)) <$> indices))
              (footer_request w (footer_html w t d (i + 1) n)) = inr resp
            ∧ docs !! j = Some (content resp).
Proof.
  intros Hok. induction indices as [|i rest IH]; intros Hr acc s Hl.
  - exists [], s. simpl. rewrite !app_nil_r.
    split; [reflexivity|]. split; [reflexivity|]. split; [reflexivity|].
    intros j i [=].
  - simpl. rewrite run_bind, run_generate_single_footer_pdf. simpl.
    rewrite Hl. simpl.
    destruct (Hr i) as [html Hhtml]; [left|].
    rewrite Hhtml.
    destruct (Hok (trace s) (footer_request w html)) as (resp & Hpost & Hst).
    rewrite Hpost, (checked_ok resp Hst).
    set (s1 := with_trace _ _).
    assert (Hl1 : heap s1 !! l = Some d).
    { subst s1. simpl. rewrite lookup_insert_ne by (eapply fresh_ne; exact Hl). exact Hl. }
    destruct (IH (λ i' Hi', Hr i' (list_elem_of_further _ _ _ Hi'))
                (acc ++ [content resp]) s1 Hl1)
      as (docs & s' & Hrun & Hlen & Htr & Hdocs).
    assert (Hfh : footer_html w t d (i + 1) n = html).
    { unfold footer_html. rewrite Hhtml. reflexivity. }
    exists (content resp :: docs), s'. split; [|split; [|split]].
    + rewrite Hrun, <- app_assoc. reflexivity.
    + simpl. rewrite Hlen. reflexivity.
    + rewrite Htr. subst s1. simpl. rewrite <- app_assoc. simpl.
      unfold footer_post at 2. rewrite Hfh. reflexivity.
    + intros [|j] i' Hj; simpl in Hj.
      * injection Hj as <-. exists resp. simpl. rewrite app_nil_r, Hfh.
        split; [exact Hpost|reflexivity].
      * destruct (Hdocs j i' Hj) as (resp' & Hp' & Hd').
        exists resp'. split; [|exact Hd'].
        subst s1. simpl in Hp'. rewrite <- app_assoc in Hp'. simpl in Hp'.
        simpl. unfold footer_post at 1. rewrite Hfh. exact Hp'.
Qed.

Lemma fmap_pages_seqZ {B} (f : Z → B) (n : Z) :
  (λ i, f (i + 1)) <$> seqZ 0 n = f <$> seqZ 1 n.
Proof.
  replace (seqZ 1 n) with (Z.add 1 <$> seqZ 0 n) by exact (fmap_add_seqZ 1 0 n).
  rewrite <- list_fmap_compose.
  apply list_fmap_ext. intros _ i _. simpl. f_equal. lia.
Qed.

(** C2: for a page count [n ≥ 1], when the footer template loads and
    renders and the renderer answers, [_generate_footer_pdfs] returns
    exactly [n] footer documents.  It makes [n] posts, in page order: the
    [k]-th one (k = 1..n) carries the footer template rendered on the
    entries of [template_args] with [current_page = k] and
    [total_pages = n], and the [k]-th document is the answer to it. *)
Theorem footer_pdfs_one_per_page (l : loc) (d : gmap string pyval) (n : Z)
    (t : template) (s : state) :
  1 ≤ n →
  heap s !! l = Some d →
  get_template w (footer_template_path w) = inr t →
  (∀ k, 1 ≤ k ≤ n → ∃ html, template_render w t (page_context d k n) = inr html) →
  renderer_succeeds w →
  ∃ footer_pdfs s',
    _generate_footer_pdfs w (Some l) n s = (Returned footer_pdfs, s')
    ∧ length footer_pdfs = Z.to_nat n
    ∧ trace s' = trace s ++ (footer_post w t d n <$> seqZ 1 n)
    ∧ (∀ k, 1 ≤ k ≤ n →
         page_context d k n !! "current_page" = Some (PyInt k)
         ∧ page_context d k n !! "total_pages" = Some (PyInt n))
    ∧ (∀ j k, seqZ 1 n !! j = Some k →
         ∃ resp,
           http_post w (trace s ++ take j (footer_post w t d n <$> seqZ 1 n))
             (footer_request w (footer_html w t d k n)) = inr resp
           ∧ footer_pdfs !! j = Some (content resp)).
Proof.
  intros Hn Hl Ht Hr Hok.
  unfold _generate_footer_pdfs. fold (footer_template_path w).
  rewrite run_bind, run_lift, Ht. simpl. unfold range.
  destruct (run_footer_loop t l d n (seqZ 0 n) Hok) with (acc := @nil (list byte)) (s := s)
    as (docs & s' & Hrun & Hlen & Htr & Hdocs).
  { intros i Hi. apply elem_of_seqZ in Hi. apply Hr. lia. }
  { exact Hl. }
  rewrite (fmap_pages_seqZ (footer_post w t d n)) in Htr, Hdocs.
  exists docs, s'. split; [exact Hrun|]. split; [|split; [|split]].
  - rewrite Hlen. apply length_seqZ.
  - exact Htr.
  - intros k Hk. unfold page_context. split.
    + rewrite lookup_insert_ne by discriminate. apply lookup_insert_eq.
    + apply lookup_insert_eq.
  - intros j k Hj. apply lookup_seqZ in Hj as [-> Hj].
    destruct (Hdocs j (Z.of_nat j)) as (resp & Hp & Hd).
    { apply lookup_seqZ. lia. }
    exists resp. split; [|exact Hd].
    replace (1 + Z.of_nat j) with (Z.of_nat j + 1) by lia. exact Hp.
Qed.

(** C8: [generate_single_footer_pdf] does not change the dict it is
    given.  After a call every dict object that existed before the call,
    the caller's [template_args] among them, holds the entries it held;
    [current_page] and [total_pages] are set on a new object, the copy.
    The same holds after all the calls of [_generate_footer_pdfs]. *)
Theorem footer_generation_keeps_template_args (t : template) (l : loc)
    (d : gmap string pyval) (cp tp n : Z) (s : state) :
  heap s !! l = Some d →
  let s1 := snd (generate_single_footer_pdf w t (Some l) cp tp s) in
  heap s1 !! l = Some d
  ∧ (∀ l0 d0, heap s !! l0 = Some d0 → heap s1 !! l0 = Some d0)
  ∧ fresh (dom (heap s)) ≠ l
  ∧ heap s1 !! fresh (dom (heap s)) = Some (page_context d cp tp)
  ∧ (∀ l0 d0, heap s !! l0 = Some d0 →
       heap (snd (_generate_footer_pdfs w (Some l) n s)) !! l0 = Some d0).
Proof.
  intros Hl s1. split; [|split; [|split; [|split]]].
  - apply single_footer_frame. exact Hl.
  - intros l0 d0. apply single_footer_frame.
  - eapply fresh_ne. exact Hl.
  - subst s1. rewrite run_generate_single_footer_pdf. simpl. rewrite Hl. simpl.
    destruct (template_render w t _); simpl; apply lookup_insert_eq.
  - intros l0 d0 Hl0. unfold _generate_footer_pdfs.
    rewrite run_bind, run_lift.
    destruct (get_template w _) as [e|t']; simpl; [exact Hl0|].
    apply footer_loop_frame. exact Hl0.
Qed.

End Footers.

(** ** The page count zero (C6) *)

Section ZeroPages.

Context {page template : Type} (w : World page template).
Import ReportService.

(** Without footers the loop copies the pages and changes no state. *)
Lemma overlay_loop_no_footers (main_pages : list page) :
  ∀ i acc s r s',
    overlay_loop w [] i main_pages acc s = (r, s') →
    s' = s
    ∧ ∀ result, r = Returned result →
        ∃ copies, copied w main_pages copies ∧ result = acc ++ copies.
Proof.
  induction main_pages as [|p ps IH]; intros i acc s r s'; simpl.
  - intros [= <- <-]. split; [reflexivity|].
    intros result [= <-]. exists []. split; [constructor|].
    rewrite app_nil_r. reflexivity.
  - rewrite run_bind, run_overlay_step.
    destruct (pdf_pages_append w p) as [e|c] eqn:Hp; simpl.
    + intros [= <- <-]. split; [reflexivity|]. intros ? [=].
    + unfold page_after, page_warnings. simpl. rewrite with_trace_nil.
      intros H. apply IH in H as [-> H]. split; [reflexivity|].
      intros result Hr. destruct (H result Hr) as (cs & Hcs & ->).
      exists (c :: cs). split; [constructor; assumption|].
      rewrite <- app_assoc. reflexivity.
Qed.

(** C6, as amended: when the page counter gives 0 for the first-pass
    document (and the footer template loads), the multi-pass flow makes no
    footer-generation call, the first-pass render being its only post, and
    returns what the overlay pass gives for an empty list of footers:
    either the document that the PDF library saves from the copies of the
    main document's pages, none of them overlaid, or, when the overlay
    pass fails, the first-pass bytes as they are. *)
Theorem page_numbers_zero_pages (name : pyval) (args : option loc) (html : string)
    (s : state) (first : list byte) (s1 : state) (t : template) :
  generate_pdf w html false None s = (Returned first, s1) →
  get_pdf_page_count w first = inr 0 →
  get_template w (footer_template_path w) = inr t →
  let r := _generate_pdf_with_page_numbers w name args html s in
  r = _overlay_footer_pdfs_on_main_pdf w first [] s1
  ∧ s1 = with_trace s [EvPost (pdf_request w html false None)]
  ∧ ((∃ main_pages copies out,
        pdf_open w first = inr main_pages
        ∧ copied w main_pages copies
        ∧ pdf_save w copies = inr out
        ∧ r = (Returned out, s1))
     ∨ (∃ e, r = (Returned first, with_trace s1 [overlay_error e]))).
Proof.
  intros Hgen Hcount Ht r.
  assert (Hr : r = _overlay_footer_pdfs_on_main_pdf w first [] s1).
  { subst r. unfold _generate_pdf_with_page_numbers.
    rewrite run_bind, Hgen. rewrite run_bind, run_lift, Hcount. simpl.
    unfold _generate_footer_pdfs. fold (footer_template_path w).
    rewrite !run_bind, run_lift, Ht. reflexivity. }
  split; [exact Hr|]. split.
  { rewrite run_generate_pdf in Hgen. injection Hgen as _ <-. reflexivity. }
  rewrite Hr, run_overlay_footer_pdfs, run_overlay_body.
  destruct (pdf_open w first) as [e|main_pages] eqn:Hopen.
  { right. exists e. reflexivity. }
  destruct (overlay_loop w [] 0 main_pages [] s1) as [[result|e] s2] eqn:Hloop;
    apply overlay_loop_no_footers in Hloop as [-> Hres].
  - destruct (Hres result eq_refl) as (copies & Hc & ->). simpl.
    destruct (pdf_save w copies) as [e|out] eqn:Hsave; simpl.
    + right. exists e. reflexivity.
    + left. exists main_pages, copies, out. repeat split; assumption.
  - right. exists e. reflexivity.
Qed.

End ZeroPages.

(** C6 as stated fails: the first pass gives a document without pages, no
    footer is generated, and the flow returns the document as the PDF
    library writes it again, which is not the bytes of the first pass. *)
Lemma zero_pages_not_byte_identical :
  fst (ReportService.generate_pdf (Stub.stub 200 Stub.no_pages "")
         "<html></html>" false None Stub.st0) = Returned Stub.no_pages
  ∧ get_pdf_page_count (Stub.stub 200 Stub.no_pages "") Stub.no_pages = inr 0
  ∧ fst (ReportService._generate_pdf_with_page_numbers (Stub.stub 200 Stub.no_pages "")
           (PyStr "statement_report") (Some 1%positive) "<html></html>" Stub.st0)
      = Returned [x50]
  ∧ [x50] ≠ Stub.no_pages.
Proof.
  split; [vm_compute; reflexivity|].
  split; [reflexivity|].
  split; [vm_compute; reflexivity|].
  discriminate.
Qed.

(** The run above, by the theorem: the saved copy of no pages. *)
Lemma page_numbers_zero_pages_witness :
  ReportService._generate_pdf_with_page_numbers (Stub.stub 200 Stub.no_pages "")
    (PyStr "statement_report") (Some 1%positive) "<html></html>" Stub.st0
  = ReportService._overlay_footer_pdfs_on_main_pdf (Stub.stub 200 Stub.no_pages "")
      Stub.no_pages []
      (with_trace Stub.st0
         [EvPost (ReportService.pdf_request (Stub.stub 200 Stub.no_pages "")
                    "<html></html>" false None)]).
Proof.
  apply (page_numbers_zero_pages (Stub.stub 200 Stub.no_pages "")
           (PyStr "statement_report") (Some 1%positive) "<html></html>" Stub.st0
           Stub.no_pages _ "templates/statement_footer.html");
    reflexivity.
Defined.

(** ** The stub at work *)

Section StubFacts.

Import Stub.

Lemma stub_save_keeps_page_count (status : Z) (main : list byte) (bad : string) :
  save_keeps_page_count (stub status main bad).
Proof. intros pages b [= <-]. reflexivity. Qed.

Lemma stub_copied (status : Z) (main : list byte) (bad : string) (pages : list byte) :
  copied (stub status main bad) pages pages.
Proof. induction pages; constructor; [reflexivity|assumption]. Qed.

Lemma stub_renderer_succeeds (main : list byte) (bad : string) :
  renderer_succeeds (stub 200 main bad).
Proof.
  intros tr req. simpl. unfold stub_post.
  destruct (files req) as [|a [|b [|c r]]];
    try (eexists; split; [reflexivity|simpl; lia]).
  destruct (String.eqb (body b) bad); eexists; (split; [reflexivity|simpl; lia]).
Qed.

Lemma stub_footer_renders (status : Z) (main : list byte) (bad : string)
    (t : string) (d : gmap string pyval) (k n : Z) :
  template_render (stub status main bad) t (page_context d k n)
    = inr (pretty k +:+ "/" +:+ pretty n).
Proof.
  simpl. unfold stub_render, page_context.
  rewrite lookup_insert_ne by discriminate. rewrite !lookup_insert_eq. reflexivity.
Qed.

End StubFacts.

(** Three pages: three posts, with the footers [1/3], [2/3] and [3/3]. *)
Lemma footer_pdfs_one_per_page_witness :
  ∃ footer_pdfs s',
    ReportService._generate_footer_pdfs (Stub.stub 200 Stub.three_pages "")
      (Some 1%positive) 3 Stub.st0 = (Returned footer_pdfs, s')
    ∧ length footer_pdfs = 3%nat
    ∧ trace s' =
        [EvPost (ReportService.footer_request (Stub.stub 200 Stub.three_pages "") "1/3");
         EvPost (ReportService.footer_request (Stub.stub 200 Stub.three_pages "") "2/3");
         EvPost (ReportService.footer_request (Stub.stub 200 Stub.three_pages "") "3/3")].
Proof.
  destruct (footer_pdfs_one_per_page (Stub.stub 200 Stub.three_pages "")
              1%positive {[ "accountName" := PyStr "acme" ]} 3
              "templates/statement_footer.html" Stub.st0)
    as (fp & s' & Hrun & Hlen & Htr & _).
  - lia.
  - reflexivity.
  - reflexivity.
  - intros k _. eexists. apply stub_footer_renders.
  - apply stub_renderer_succeeds.
  - exists fp, s'. split; [exact Hrun|]. split; [exact Hlen|].
    rewrite Htr. vm_compute. reflexivity.
Defined.

(** A three-page document with three footers gives a three-page result. *)
Lemma overlay_preserves_page_count_witness :
  page_count (Stub.stub 200 Stub.three_pages "") [x50; x81; x82; x83]
  = page_count (Stub.stub 200 Stub.three_pages "") Stub.three_pages.
Proof.
  destruct (overlay_preserves_page_count (Stub.stub 200 Stub.three_pages "")
              Stub.three_pages [Stub.good_footer; Stub.good_footer; Stub.good_footer]
              Stub.st0 [x50; x81; x82; x83] Stub.st0)
    as (_ & mp & rp & _ & _ & _ & H).
  - apply stub_save_keeps_page_count.
  - vm_compute. reflexivity.
  - exact H.
Defined.

(** Five pages, the footer of page 3 broken: five pages in the result,
    page 3 as it was and a warning for it, page 4 overlaid. *)
Lemma overlay_failures_isolated_witness :
  ∃ result_pages warnings,
    ReportService.overlay_loop (Stub.stub 200 Stub.five_pages "")
      [Stub.good_footer; Stub.good_footer; Stub.bad_footer; Stub.good_footer;
       Stub.good_footer]
      0 [x01; x02; x03; x04; x05] [] Stub.st0
      = (Returned result_pages, with_trace Stub.st0 warnings)
    ∧ length result_pages = 5%nat
    ∧ result_pages !! 2%nat = Some x03
    ∧ EvLog WARNING "Could not overlay footer on page " (Some 3)
        (LibraryError "not a PDF") ∈ warnings
    ∧ result_pages !! 3%nat = Some x84.
Proof.
  destruct (overlay_failures_isolated (Stub.stub 200 Stub.five_pages "")
              [Stub.good_footer; Stub.good_footer; Stub.bad_footer; Stub.good_footer;
               Stub.good_footer]
              [x01; x02; x03; x04; x05] [x01; x02; x03; x04; x05] Stub.st0
              (stub_copied 200 Stub.five_pages "" [x01; x02; x03; x04; x05]))
    as (rp & ws & Hloop & Hlen & _ & Hopen & _ & Hok & _).
  exists rp, ws. split; [exact Hloop|]. split; [exact Hlen|].
  destruct (Hopen 2%nat x03 Stub.bad_footer (LibraryError "not a PDF")
              eq_refl eq_refl eq_refl) as [H3 Hw].
  split; [exact H3|]. split; [exact Hw|].
  exact (Hok 3%nat x04 Stub.good_footer x80 [] x84 eq_refl eq_refl eq_refl eq_refl eq_refl).
Defined.

(** A main document that does not open comes back as it is. *)
Lemma overlay_never_raises_witness :
  ∃ s',
    ReportService._overlay_footer_pdfs_on_main_pdf (Stub.stub 200 Stub.three_pages "")
      Stub.bad_footer [Stub.good_footer] Stub.st0
    = (Returned Stub.bad_footer, s').
Proof.
  destruct (overlay_never_raises (Stub.stub 200 Stub.three_pages "")
              Stub.bad_footer [Stub.good_footer] Stub.st0)
    as (out & s' & Hrun & _ & Hopen & _).
  exists s'. rewrite Hrun.
  rewrite (Hopen (LibraryError "not a PDF") eq_refl). reflexivity.
Defined.

(** Three main pages and five footers: as with the first three footers.
    Three main pages and one footer: pages 2 and 3 are plain copies. *)
Lemma overlay_count_divergence_witness :
  ReportService._overlay_footer_pdfs_on_main_pdf (Stub.stub 200 Stub.three_pages "")
    Stub.three_pages
    [Stub.good_footer; Stub.good_footer; Stub.good_footer] Stub.st0
  = ReportService._overlay_footer_pdfs_on_main_pdf (Stub.stub 200 Stub.three_pages "")
      Stub.three_pages
      [Stub.good_footer; Stub.good_footer; Stub.good_footer; Stub.bad_footer;
       Stub.good_footer] Stub.st0.
Proof.
  exact (proj1 (overlay_count_divergence (Stub.stub 200 Stub.three_pages "")
                  Stub.three_pages
                  [Stub.good_footer; Stub.good_footer; Stub.good_footer;
                   Stub.bad_footer; Stub.good_footer]
                  [x01; x02; x03] Stub.st0 eq_refl)).
Defined.

(** The dict at reference 1 after the footer of page 2 of 3. *)
Lemma footer_generation_keeps_template_args_witness :
  heap (snd (ReportService.generate_single_footer_pdf (Stub.stub 200 Stub.three_pages "")
               "templates/statement_footer.html" (Some 1%positive) 2 3 Stub.st0))
    !! 1%positive
  = Some {[ "accountName" := PyStr "acme" ]}.
Proof.
  exact (proj1 (footer_generation_keeps_template_args (Stub.stub 200 Stub.three_pages "")
                  "templates/statement_footer.html" 1%positive
                  {[ "accountName" := PyStr "acme" ]} 2 3 3 Stub.st0 eq_refl)).
Defined.

(** ** Whole requests on the stub *)

(** A statement report of three pages with page numbers: the first-pass
    render, then the footers of pages 1, 2 and 3 of 3, and a result of three
    pages, each overlaid. *)
Example three_pages_end_to_end :
  let r := ReportService._finalize_pdf (Stub.stub 200 Stub.three_pages "")
             (PyStr "statement_report") (Some 1%positive)
             "<html><body>Report</body></html>" true Stub.st0 in
  fst r = Returned [x50; x81; x82; x83]
  ∧ trace (snd r) =
      [EvPost (ReportService.pdf_request (Stub.stub 200 Stub.three_pages "")
                 "<html><body>Report</body></html>" false None);
       EvPost (ReportService.footer_request (Stub.stub 200 Stub.three_pages "") "1/3");
       EvPost (ReportService.footer_request (Stub.stub 200 Stub.three_pages "") "2/3");
       EvPost (ReportService.footer_request (Stub.stub 200 Stub.three_pages "") "3/3")]
  ∧ heap (snd r) !! 1%positive = Some {[ "accountName" := PyStr "acme" ]}.
Proof. vm_compute. repeat split; reflexivity. Qed.

(** Five pages, the footer of page 3 broken: pages 1, 2, 4 and 5 carry the
    overlay bit, page 3 does not, and one warning is logged. *)
Example five_pages_partial_failure :
  let r := ReportService._finalize_pdf (Stub.stub 200 Stub.five_pages "3/5")
             (PyStr "statement_report") (Some 1%positive)
             "<html><body>Report</body></html>" true Stub.st0 in
  fst r = Returned [x50; x81; x82; x03; x84; x85]
  ∧ List.filter (λ ev, match ev with EvLog _ _ _ _ => true | _ => false end)
      (trace (snd r))
    = [EvLog WARNING "Could not overlay footer on page " (Some 3)
         (LibraryError "not a PDF")].
Proof. vm_compute. split; reflexivity. Qed.

(** The marker is looked for anywhere in the name. *)
Example contains_marker :
  contains "statement_report" "monthly_statement_report_v2" = true
  ∧ contains "statement_report" "statement" = false
  ∧ contains "statement_report" "" = false.
Proof. repeat split; reflexivity. Qed.

(** * Further properties of the report service *)

(** ** The date filter *)

Section DateFilter.

Context {datetime : Type}.
Variable parse : pyval → exn + datetime.
Variable strftime : datetime → string → exn + string.
Variable int_timestamp : datetime → exn + Z.

Import DateFormat.

(** X1: a format name that [format_datetime] does not know is not an
    error: the date is formatted as for ['short'].  Names are compared as
    they are, so ['Full'] or ['SHORT'] are such names. *)
Theorem format_datetime_unknown_is_short (value : pyval) (format : string) :
  format ∉ known_formats →
  format_datetime parse strftime int_timestamp value format
    = format_datetime parse strftime int_timestamp value "short".
Proof.
  intros Hn. unfold format_datetime.
  repeat match goal with
  | |- context [String.eqb format ?k] =>
      let E := fresh "E" in
      destruct (String.eqb format k) eqn:E;
        [apply String.eqb_eq in E; exfalso; apply Hn; rewrite E;
         unfold known_formats; set_solver|]
  end.
  reflexivity.
Qed.

(** X2: a value that does not parse as a date makes [format_datetime]
    raise the parser's error for every format name; and when a result comes
    back it is an [int] for ['unix'] and a [str] for every other name. *)
Theorem format_datetime_result (value : pyval) :
  (∀ e format, parse value = inl e →
     format_datetime parse strftime int_timestamp value format = inl e)
  ∧ (∀ format v,
       format_datetime parse strftime int_timestamp value format = inr v →
       if String.eqb format "unix" then ∃ z, v = PyInt z else ∃ s, v = PyStr s).
Proof.
  split.
  - intros e format He. unfold format_datetime, parse_strftime. rewrite He.
    repeat match goal with
    | |- context [String.eqb format ?k] => destruct (String.eqb format k)
    end; reflexivity.
  - intros format v. unfold format_datetime, parse_strftime.
    repeat match goal with
    | |- context [String.eqb format ?k] =>
        let E := fresh "E" in
        destruct (String.eqb format k) eqn:E;
          [apply String.eqb_eq in E; subst format; simpl|]
    end;
    destruct (parse value) as [e|d]; try discriminate;
    try (destruct (strftime d _) as [e|s0]; [discriminate|];
         intros [= <-]; eexists; reflexivity).
    destruct (int_timestamp d) as [e|z]; [discriminate|].
    intros [= <-]. eexists. reflexivity.
Qed.

End DateFilter.

(** ['Full'] is not ['full']: the short form is used. *)
Lemma format_datetime_unknown_is_short_witness :
  DateFormat.format_datetime (λ _, inr 0) (λ (_ : Z) fmt, inr fmt) (λ d, inr d)
    (PyStr "2024-01-31") "Full"
  = inr (PyStr "%m-%d-%Y").
Proof.
  rewrite (format_datetime_unknown_is_short (λ _, inr 0) (λ (_ : Z) fmt, inr fmt)
             (λ d, inr d) (PyStr "2024-01-31") "Full").
  - reflexivity.
  - unfold DateFormat.known_formats. intros H.
    repeat (apply elem_of_cons in H as [H|H]; [discriminate|]).
    inversion H.
Defined.

(** A value that is not a date string raises for ['unix'] too. *)
Lemma format_datetime_result_witness :
  DateFormat.format_datetime
    (λ v, match v with PyStr _ => inr 0 | _ => inl (TypeError "Parser must be a string") end)
    (λ (_ : Z) fmt, inr fmt) (λ d, inr d) (PyInt 5) "unix"
  = inl (TypeError "Parser must be a string").
Proof.
  apply (proj1 (format_datetime_result
                  (λ v, match v with
                        | PyStr _ => inr 0
                        | _ => inl (TypeError "Parser must be a string")
                        end)
                  (λ (_ : Z) fmt, inr fmt) (λ d, inr d) (PyInt 5))).
  reflexivity.
Defined.

(** ** Routing, again *)

Section RoutingExtras.

Context {page template : Type} (w : World page template).
Import ReportService.

Lemma pdf_request_no_footer (html : string) (flag : bool) :
  pdf_request w html flag None
    = Request (gotenberg_endpoint w) [html_part "index.html" html] [] 120.
Proof. unfold pdf_request, wants_footer. rewrite andb_false_r. reflexivity. Qed.

Lemma run_direct_render (name : pyval) (args : option loc) (html : string)
    (flag : bool) (s : state) :
  is_statement name = inr false →
  _finalize_pdf w name args html flag s
    = (checked (http_post w (trace s)
                  (Request (gotenberg_endpoint w) [html_part "index.html" html] [] 120)),
       with_trace s
         [EvPost (Request (gotenberg_endpoint w) [html_part "index.html" html] [] 120)]).
Proof.
  intros Hn. rewrite (run_finalize_pdf w name args html flag false s Hn). simpl.
  rewrite run_generate_pdf, pdf_request_no_footer. reflexivity.
Qed.

Lemma is_statement_falsy (v : pyval) : truthy v = false → is_statement v = inr false.
Proof. intros H. unfold is_statement, or_empty_str. rewrite H. reflexivity. Qed.

Lemma is_statement_number (v : pyval) :
  (∃ z, v = PyInt z ∧ z ≠ 0) ∨ v = PyBool true →
  ∃ m, is_statement v = inl (TypeError m).
Proof.
  intros [(z & -> & Hz)| ->]; unfold is_statement, or_empty_str; simpl.
  - apply Z.eqb_neq in Hz. rewrite Hz. simpl. eexists. reflexivity.
  - eexists. reflexivity.
Qed.

(** X3: for a template name that is not a statement report, neither
    [generate_page_number] nor the template arguments change anything: the
    request is one post of the single part [index.html], without footer
    instruction, and the answer of the renderer is the result. *)
Theorem non_statement_ignores_flag_and_args (name : pyval) (html : string)
    (args args' : option loc) (flag flag' : bool) (s : state) :
  is_statement name = inr false →
  _finalize_pdf w name args html flag s = _finalize_pdf w name args' html flag' s
  ∧ posts_of (trace (snd (_finalize_pdf w name args html flag s)))
    = posts_of (trace s)
        ++ [Request (gotenberg_endpoint w) [html_part "index.html" html] [] 120].
Proof.
  intros Hn. rewrite !(run_direct_render name _ html _ s Hn). split; [reflexivity|].
  simpl. induction (trace s) as [|[| |] tr IH]; simpl; rewrite ?IH; reflexivity.
Qed.

(** X4: what [create_report_from_template] does with a [reportName] that is
    not a string.  A falsy one ([None], [False], [0], an empty string, list
    or dict) stands for no name: the report is rendered directly.  A
    non-zero number or [True] makes the membership test raise [TypeError];
    this happens after the template was rendered and before any outward
    call. *)
Theorem report_name_types (ts : string) (l : loc) (d : gmap string pyval)
    (v : pyval) (flag : bool) (s : state) (t : template) (html : string) :
  heap s !! l = Some d →
  d !! "reportName" = Some v →
  sandbox_from_string w ts = inr t →
  template_render w t d = inr html →
  (truthy v = false →
     create_report_from_template w ts (Some l) flag s
       = generate_pdf w html flag None s)
  ∧ ((∃ z, v = PyInt z ∧ z ≠ 0) ∨ v = PyBool true →
     ∃ m, create_report_from_template w ts (Some l) flag s = (Raised (TypeError m), s)).
Proof.
  intros Hl Hd Ht Hr.
  assert (E : create_report_from_template w ts (Some l) flag s
              = _finalize_pdf w v (Some l) html flag s).
  { unfold create_report_from_template.
    rewrite run_bind, run_lift, Ht. simpl.
    unfold render_args, dict_read. rewrite !run_bind. simpl.
    rewrite Hl. simpl. rewrite run_lift, Hr. simpl.
    rewrite run_bind. simpl. rewrite Hl. simpl.
    unfold dict_get_default. rewrite Hd. reflexivity. }
  rewrite E. split.
  - intros Hv.
    rewrite (run_finalize_pdf w v (Some l) html flag false s (is_statement_falsy v Hv)).
    reflexivity.
  - intros Hv. destruct (is_statement_number v Hv) as [m Hm]. exists m.
    unfold _finalize_pdf. rewrite run_bind, run_lift, Hm. reflexivity.
Qed.

(** X5: every failure of [create_report_from_template] before the routing
    step leaves the state as it was (no post, no chunk call, no log
    record): a template that does not decode or compile, template arguments
    that are [None] (the render raises [TypeError]), and a render that
    raises. *)
Theorem adhoc_template_failures (ts : string) (flag : bool) (s : state) :
  (∀ e args, sandbox_from_string w ts = inl e →
     create_report_from_template w ts args flag s = (Raised e, s))
  ∧ (∀ t, sandbox_from_string w ts = inr t →
       ∃ m, create_report_from_template w ts None flag s = (Raised (TypeError m), s))
  ∧ (∀ t l e, sandbox_from_string w ts = inr t →
       template_render w t (default ∅ (heap s !! l)) = inl e →
       create_report_from_template w ts (Some l) flag s = (Raised e, s)).
Proof.
  unfold create_report_from_template. split; [|split].
  - intros e args He. rewrite run_bind, run_lift, He. reflexivity.
  - intros t Ht. eexists. rewrite run_bind, run_lift, Ht. reflexivity.
  - intros t l e Ht He. rewrite run_bind, run_lift, Ht. simpl.
    unfold render_args, dict_read. rewrite !run_bind. simpl.
    rewrite run_lift, He. reflexivity.
Qed.

End RoutingExtras.

(** ** The stored-template entry point *)

Section StoredEntry.

Context {page template : Type} (w : World page template).
Variable url_for : string → string → exn + string.
Import ReportService StoredTemplates.

(** The path of a stored template. *)
Let stored_path (name : string) : string :=
  TEMPLATE_FOLDER_PATH w +:+ "/" +:+ name +:+ ".html".

(** X6: every failure of [create_report_from_stored_template] before the
    routing step leaves the state as it was (no post, no chunk call): a
    template that is not found, a logo URL that cannot be built, template
    arguments that are [None], and a render that raises. *)
Theorem stored_template_failures (name : string) (flag : bool) (s : state) :
  (∀ e args, get_template w (stored_path name) = inl e →
     create_report_from_stored_template w url_for name args flag s = (Raised e, s))
  ∧ (∀ t e args, get_template w (stored_path name) = inr t →
       url_for "static" "images/bcgov-logo-vert.jpg" = inl e →
       create_report_from_stored_template w url_for name args flag s = (Raised e, s))
  ∧ (∀ t b e args, get_template w (stored_path name) = inr t →
       url_for "static" "images/bcgov-logo-vert.jpg" = inr b →
       url_for "static" "images/reg_logo.png" = inl e →
       create_report_from_stored_template w url_for name args flag s = (Raised e, s))
  ∧ (∀ t b r, get_template w (stored_path name) = inr t →
       url_for "static" "images/bcgov-logo-vert.jpg" = inr b →
       url_for "static" "images/reg_logo.png" = inr r →
       ∃ m, create_report_from_stored_template w url_for name None flag s
            = (Raised (TypeError m), s))
  ∧ (∀ t b r l e, get_template w (stored_path name) = inr t →
       url_for "static" "images/bcgov-logo-vert.jpg" = inr b →
       url_for "static" "images/reg_logo.png" = inr r →
       template_render w t
         (<["registriesurl" := PyStr r]> (<["bclogoUrl" := PyStr b]>
            (default ∅ (heap s !! l)))) = inl e →
       create_report_from_stored_template w url_for name (Some l) flag s
         = (Raised e, s)).
Proof.
  unfold create_report_from_stored_template. fold (stored_path name).
  split; [|split; [|split; [|split]]].
  - intros e args He. rewrite run_bind, run_lift, He. reflexivity.
  - intros t e args Ht He. rewrite run_bind, run_lift, Ht. simpl.
    rewrite run_bind, run_lift, He. reflexivity.
  - intros t b e args Ht Hb He. rewrite run_bind, run_lift, Ht. simpl.
    rewrite run_bind, run_lift, Hb. simpl.
    rewrite run_bind, run_lift, He. reflexivity.
  - intros t b r Ht Hb Hr. eexists. rewrite run_bind, run_lift, Ht. simpl.
    rewrite run_bind, run_lift, Hb. simpl.
    rewrite run_bind, run_lift, Hr. reflexivity.
  - intros t b r l e Ht Hb Hr He. rewrite run_bind, run_lift, Ht. simpl.
    rewrite run_bind, run_lift, Hb. simpl.
    rewrite run_bind, run_lift, Hr. simpl.
    unfold render_with_logos, dict_read. rewrite !run_bind. simpl.
    rewrite run_lift, He. reflexivity.
Qed.

(** X7: a stored template is rendered on the template arguments with the
    two logo URLs added, the URLs taking the place of entries of the same
    name; the caller's dict is not changed, and the routing step gets the
    template arguments as the caller gave them, without the logo URLs.  For
    a name without [statement_report] the outcome is one post of the single
    part [index.html] with that HTML. *)
Theorem stored_template_render (name : string) (l : loc) (d : gmap string pyval)
    (flag : bool) (s : state) (t : template) (b r html : string) :
  heap s !! l = Some d →
  get_template w (stored_path name) = inr t →
  url_for "static" "images/bcgov-logo-vert.jpg" = inr b →
  url_for "static" "images/reg_logo.png" = inr r →
  let ctx := <["registriesurl" := PyStr r]> (<["bclogoUrl" := PyStr b]> d) in
  template_render w t ctx = inr html →
  (ctx !! "bclogoUrl" = Some (PyStr b)
   ∧ ctx !! "registriesurl" = Some (PyStr r)
   ∧ ∀ k, k ≠ "bclogoUrl" → k ≠ "registriesurl" → ctx !! k = d !! k)
  ∧ create_report_from_stored_template w url_for name (Some l) flag s
    = _finalize_pdf w (PyStr name) (Some l) html flag s
  ∧ (contains statement_marker name = false →
     create_report_from_stored_template w url_for name (Some l) flag s
       = (checked (http_post w (trace s)
                     (Request (gotenberg_endpoint w) [html_part "index.html" html] [] 120)),
          with_trace s
            [EvPost (Request (gotenberg_endpoint w) [html_part "index.html" html] [] 120)])).
Proof.
  intros Hl Ht Hb Hr ctx Hrender.
  assert (E : create_report_from_stored_template w url_for name (Some l) flag s
              = _finalize_pdf w (PyStr name) (Some l) html flag s).
  { unfold create_report_from_stored_template. fold (stored_path name).
    rewrite run_bind, run_lift, Ht. simpl.
    rewrite run_bind, run_lift, Hb. simpl.
    rewrite run_bind, run_lift, Hr. simpl.
    unfold render_with_logos, dict_read. rewrite !run_bind. simpl.
    rewrite Hl. simpl. fold ctx. rewrite run_lift, Hrender. reflexivity. }
  split; [|split].
  - subst ctx. split; [|split].
    + rewrite lookup_insert_ne by discriminate. apply lookup_insert_eq.
    + apply lookup_insert_eq.
    + intros k Hk1 Hk2. rewrite !lookup_insert_ne by congruence. reflexivity.
  - exact E.
  - intros Hn. rewrite E. apply run_direct_render.
    pose proof (is_statement_name (Some name)) as Hs. simpl in Hs.
    rewrite Hs, Hn. reflexivity.
Qed.

End StoredEntry.

(** ** The multi-pass flow as a whole *)

Section Posts.

Lemma posts_of_app (a b : list event) : posts_of (a ++ b) = posts_of a ++ posts_of b.
Proof.
  induction a as [|[req| |] a IH]; simpl; rewrite ?IH; reflexivity.
Qed.

Lemma posts_of_logs (logs : list event) : Forall is_log_record logs → posts_of logs = [].
Proof.
  induction 1 as [|ev logs (lvl & text & pn & e & ->) _ IH]; simpl; [reflexivity|exact IH].
Qed.

Lemma warning_is_log_record (ev : event) : is_warning ev → is_log_record ev.
Proof. intros (text & pn & e & ->). repeat eexists. Qed.

End Posts.

Section FlowExtras.

Context {page template : Type} (w : World page template).
Import ReportService.

Lemma posts_of_footer_posts (t : template) (d : gmap string pyval) (n : Z) (ks : list Z) :
  posts_of (footer_post w t d n <$> ks)
    = (λ k, footer_request w (footer_html w t d k n)) <$> ks.
Proof.
  induction ks as [|k ks IH]; [reflexivity|].
  rewrite !fmap_cons. unfold footer_post at 1. cbn [posts_of].
  rewrite IH. reflexivity.
Qed.



Lemma run_footer_pdfs_no_template (e : exn) (args : option loc) (n : Z) (s : state) :
  get_template w (footer_template_path w) = inl e →
  _generate_footer_pdfs w args n s = (Raised e, s).
Proof.
  intros He. unfold _generate_footer_pdfs. fold (footer_template_path w).
  rewrite run_bind, run_lift, He. reflexivity.
Qed.

Lemma run_footer_pdfs_none (t : template) (n : Z) (s : state) :
  get_template w (footer_template_path w) = inr t →
  1 ≤ n →
  _generate_footer_pdfs w None n s
    = (Raised (AttributeError "'NoneType' object has no attribute 'copy'"), s).
Proof.
  intros Ht Hn. unfold _generate_footer_pdfs. fold (footer_template_path w).
  rewrite run_bind, run_lift, Ht. simpl.
  unfold range. rewrite seqZ_cons by lia. reflexivity.
Qed.

(** X9: the edges of [_generate_footer_pdfs].  A missing footer template
    raises at once, for every page count.  With the template loaded, a page
    count of zero or less gives the empty list without any post, whatever
    the template arguments are; and template arguments that are [None] with
    a page count of one or more raise [AttributeError] before any post. *)
Theorem footer_pdfs_edges (s : state) :
  (∀ e args n, get_template w (footer_template_path w) = inl e →
     _generate_footer_pdfs w args n s = (Raised e, s))
  ∧ (∀ t args n, get_template w (footer_template_path w) = inr t →
       n ≤ 0 → _generate_footer_pdfs w args n s = (Returned [], s))
  ∧ (∀ t n, get_template w (footer_template_path w) = inr t →
       1 ≤ n →
       ∃ m, _generate_footer_pdfs w None n s = (Raised (AttributeError m), s)).
Proof.
  split; [|split].
  - intros e args n He. apply run_footer_pdfs_no_template. exact He.
  - intros t args n Ht Hn. unfold _generate_footer_pdfs. fold (footer_template_path w).
    rewrite run_bind, run_lift, Ht. simpl.
    unfold range. rewrite seqZ_nil by exact Hn. reflexivity.
  - intros t n Ht Hn. eexists. apply (run_footer_pdfs_none t); assumption.
Qed.

(** X10: what fails before the footers fails the request, and costs one
    post, the first-pass render.  An error of the first render leaves
    nothing else done.  When the page count cannot be taken, or the footer
    template is missing, or the template arguments are [None] and there is
    a page to number, the rendered first-pass document is dropped and the
    error is raised. *)
Theorem page_numbers_early_failures (name : pyval) (args : option loc)
    (html : string) (s : state) :
  let req := pdf_request w html false None in
  let s1 := with_trace s [EvPost req] in
  (∀ e, checked (http_post w (trace s) req) = Raised e →
     _generate_pdf_with_page_numbers w name args html s = (Raised e, s1))
  ∧ (∀ first e, checked (http_post w (trace s) req) = Returned first →
       get_pdf_page_count w first = inl e →
       _generate_pdf_with_page_numbers w name args html s = (Raised e, s1))
  ∧ (∀ first n e, checked (http_post w (trace s) req) = Returned first →
       get_pdf_page_count w first = inr n →
       get_template w (footer_template_path w) = inl e →
       _generate_pdf_with_page_numbers w name args html s = (Raised e, s1))
  ∧ (∀ first n t, checked (http_post w (trace s) req) = Returned first →
       get_pdf_page_count w first = inr n →
       get_template w (footer_template_path w) = inr t →
       1 ≤ n →
       ∃ m, _generate_pdf_with_page_numbers w name None html s
            = (Raised (AttributeError m), s1)).
Proof.
  intros req s1. unfold _generate_pdf_with_page_numbers.
  split; [|split; [|split]].
  - intros e He. rewrite run_bind, run_generate_pdf. fold req. rewrite He. reflexivity.
  - intros first e Hf He. rewrite run_bind, run_generate_pdf. fold req. rewrite Hf.
    rewrite run_bind, run_lift, He. reflexivity.
  - intros first n e Hf Hn He. rewrite run_bind, run_generate_pdf. fold req. rewrite Hf.
    rewrite run_bind, run_lift, Hn. simpl.
    rewrite run_bind, (run_footer_pdfs_no_template e args n _ He). reflexivity.
  - intros first n t Hf Hn Ht Hn1. rewrite run_bind, run_generate_pdf. fold req. rewrite Hf.
    rewrite run_bind, run_lift, Hn. simpl.
    eexists. rewrite run_bind, (run_footer_pdfs_none t n _ Ht Hn1). reflexivity.
Qed.

End FlowExtras.

(** ** The overlay pass, again *)

Section OverlayExtras.

Context {page template : Type} (w : World page template).
Import ReportService.

Lemma page_warnings_length (footer_pdfs : list (list byte)) (i : nat) (c : page) :
  (length (page_warnings w footer_pdfs i c) ≤ 1)%nat
  ∧ ((length footer_pdfs ≤ i)%nat → page_warnings w footer_pdfs i c = []).
Proof.
  unfold page_warnings. split.
  - destruct (footer_pdfs !! i) as [fb|]; [|simpl; lia].
    destruct (pdf_open w fb) as [e|[|fp rest]]; simpl; try lia.
    destruct (page_has_add_overlay w); [|simpl; lia].
    destruct (page_add_overlay w c fp); simpl; lia.
  - intros Hi. apply lookup_ge_None in Hi. rewrite Hi. reflexivity.
Qed.

(** The loop only logs warnings, at most one for each footer it reaches. *)
Lemma overlay_loop_logs (footer_pdfs : list (list byte)) (main_pages : list page) :
  ∀ i acc s,
    ∃ logs,
      snd (overlay_loop w footer_pdfs i main_pages acc s) = with_trace s logs
      ∧ Forall is_warning logs
      ∧ (length logs ≤ length footer_pdfs - i)%nat.
Proof.
  induction main_pages as [|p ps IH]; intros i acc s; simpl.
  - exists []. rewrite with_trace_nil. repeat split; [constructor|simpl; lia].
  - rewrite run_bind, run_overlay_step.
    destruct (pdf_pages_append w p) as [e|c]; simpl.
    + exists []. rewrite with_trace_nil. repeat split; [constructor|simpl; lia].
    + destruct (IH (S i) (acc ++ [page_after w footer_pdfs i c])
                  (with_trace s (page_warnings w footer_pdfs i c)))
        as (logs & Hs & Hw & Hlen).
      exists (page_warnings w footer_pdfs i c ++ logs).
      rewrite Hs, with_trace_app. split; [reflexivity|]. split.
      * apply Forall_app. split; [apply page_warnings_are_warnings|exact Hw].
      * rewrite length_app.
        destruct (page_warnings_length footer_pdfs i c) as [H1 H0].
        destruct (le_lt_dec (length footer_pdfs) i) as [Hge|Hlt].
        -- rewrite (H0 Hge). simpl. lia.
        -- lia.
Qed.

(** The pass returns, and what it adds to the state are log records. *)
Lemma overlay_returns_with_logs (main : list byte) (footer_pdfs : list (list byte))
    (s : state) :
  ∃ out logs,
    _overlay_footer_pdfs_on_main_pdf w main footer_pdfs s
      = (Returned out, with_trace s logs)
    ∧ Forall is_log_record logs.
Proof.
  rewrite run_overlay_footer_pdfs, run_overlay_body.
  destruct (pdf_open w main) as [e|ps].
  { exists main, [overlay_error e]. split; [reflexivity|].
    repeat constructor. repeat eexists. }
  destruct (overlay_loop_logs footer_pdfs ps 0 [] s) as (logs & Hs & Hw & _).
  assert (Hl : Forall is_log_record logs).
  { eapply Forall_impl; [exact Hw|]. apply warning_is_log_record. }
  destruct (overlay_loop w footer_pdfs 0 ps [] s) as [[r|e] s1]; simpl in Hs; subst s1.
  - destruct (pdf_save w r) as [e|out]; simpl.
    + exists main, (logs ++ [overlay_error e]). rewrite with_trace_app.
      split; [reflexivity|]. apply Forall_app. split; [exact Hl|].
      repeat constructor. repeat eexists.
    + exists out, logs. split; [reflexivity|exact Hl].
  - exists main, (logs ++ [overlay_error e]). rewrite with_trace_app.
    split; [reflexivity|]. apply Forall_app. split; [exact Hl|].
    repeat constructor. repeat eexists.
Qed.

(** X11: the overlay pass makes no outward call and changes no dict.  For
    every input it returns, and all it adds to the state are log records:
    warnings, at most one for each footer document, and then at most one
    error record, in which case the bytes returned are those of the main
    document. *)
Theorem overlay_pass_effects (main : list byte) (footer_pdfs : list (list byte))
    (s : state) :
  ∃ out warnings errors,
    _overlay_footer_pdfs_on_main_pdf w main footer_pdfs s
      = (Returned out, with_trace s (warnings ++ errors))
    ∧ Forall is_warning warnings
    ∧ (length warnings ≤ length footer_pdfs)%nat
    ∧ (errors = [] ∨ ∃ e, errors = [overlay_error e] ∧ out = main).
Proof.
  rewrite run_overlay_footer_pdfs, run_overlay_body.
  destruct (pdf_open w main) as [e|ps].
  { exists main, [], [overlay_error e]. split; [reflexivity|].
    split; [constructor|]. split; [simpl; lia|]. right. exists e. auto. }
  destruct (overlay_loop_logs footer_pdfs ps 0 [] s) as (logs & Hs & Hw & Hlen).
  rewrite Nat.sub_0_r in Hlen.
  destruct (overlay_loop w footer_pdfs 0 ps [] s) as [[r|e] s1]; simpl in Hs; subst s1.
  - destruct (pdf_save w r) as [e|out]; simpl.
    + exists main, logs, [overlay_error e]. rewrite with_trace_app.
      repeat split; try assumption. right. exists e. auto.
    + exists out, logs, []. rewrite app_nil_r. repeat split; try assumption.
      left. reflexivity.
  - exists main, logs, [overlay_error e]. rewrite with_trace_app.
    repeat split; try assumption. right. exists e. auto.
Qed.

(** X12: two edges of the footer documents, seen at one step of the
    loop.  A footer document that opens with no page leaves the page as its
    plain copy and logs nothing.  Of a footer document with several pages
    only the first is used: two footer lists whose documents at this index
    open with the same first page give the same step. *)
Theorem footer_document_pages (footer_pdfs footer_pdfs' : list (list byte))
    (i : nat) (p : page) (s : state) (fb : list byte) :
  footer_pdfs !! i = Some fb →
  (∀ c, pdf_pages_append w p = inr c → pdf_open w fb = inr [] →
     overlay_step w footer_pdfs i p s = (Returned c, s))
  ∧ (∀ fb' fp rest rest',
       footer_pdfs' !! i = Some fb' →
       pdf_open w fb = inr (fp :: rest) →
       pdf_open w fb' = inr (fp :: rest') →
       overlay_step w footer_pdfs i p s = overlay_step w footer_pdfs' i p s).
Proof.
  intros Hf. split.
  - intros c Hc Ho. rewrite run_overlay_step, Hc.
    unfold page_after, page_warnings. rewrite Hf, Ho, with_trace_nil. reflexivity.
  - intros fb' fp rest rest' Hf' Ho Ho'. rewrite !run_overlay_step.
    destruct (pdf_pages_append w p) as [e|c]; [reflexivity|].
    unfold page_after, page_warnings. rewrite Hf, Hf', Ho, Ho'. reflexivity.
Qed.

Lemma page_after_no_attr (footer_pdfs : list (list byte)) (i : nat) (c : page) :
  page_has_add_overlay w = false → page_after w footer_pdfs i c = c.
Proof.
  intros Hh. unfold page_after. rewrite Hh.
  destruct (footer_pdfs !! i) as [fb|]; [|reflexivity].
  destruct (pdf_open w fb) as [e|[|fp rest]]; reflexivity.
Qed.

Lemma overlay_loop_no_attr (footer_pdfs : list (list byte)) (main_pages : list page) :
  page_has_add_overlay w = false →
  ∀ i acc s s',
    fst (overlay_loop w footer_pdfs i main_pages acc s)
      = fst (overlay_loop w [] i main_pages acc s').
Proof.
  intros Hh. induction main_pages as [|p ps IH]; intros i acc s s'; simpl; [reflexivity|].
  rewrite !run_bind, !run_overlay_step.
  destruct (pdf_pages_append w p) as [e|c]; simpl; [reflexivity|].
  rewrite !page_after_no_attr by exact Hh. apply IH.
Qed.

(** X13: with a PDF library whose pages have no [add_overlay], the pass
    returns the same bytes as without any footer (the saved copies of the
    main pages, or the main document when that fails): the footers are
    dropped, and nothing is logged for a footer that opens. *)
Theorem overlay_without_add_overlay (main : list byte) (footer_pdfs : list (list byte))
    (s : state) :
  page_has_add_overlay w = false →
  fst (_overlay_footer_pdfs_on_main_pdf w main footer_pdfs s)
    = fst (_overlay_footer_pdfs_on_main_pdf w main [] s)
  ∧ ∀ i p fb fps, footer_pdfs !! i = Some fb → pdf_open w fb = inr fps →
      overlay_step w footer_pdfs i p s = (outcome_of (pdf_pages_append w p), s).
Proof.
  intros Hh. split.
  - rewrite !run_overlay_footer_pdfs, !run_overlay_body.
    destruct (pdf_open w main) as [e|ps]; [reflexivity|].
    pose proof (overlay_loop_no_attr footer_pdfs ps Hh 0%nat [] s s) as Hfst.
    destruct (overlay_loop w footer_pdfs 0 ps [] s) as [[r|e] s1];
      destruct (overlay_loop w [] 0 ps [] s) as [[r'|e'] s1'];
      simpl in Hfst; try discriminate.
    + injection Hfst as <-. destruct (pdf_save w r); reflexivity.
    + reflexivity.
  - intros i p fb fps Hf Ho. rewrite run_overlay_step.
    destruct (pdf_pages_append w p) as [e|c]; simpl; [reflexivity|].
    rewrite page_after_no_attr by exact Hh.
    unfold page_warnings. rewrite Hf, Ho, Hh.
    destruct fps; rewrite with_trace_nil; reflexivity.
Qed.

(** X14: once the renders succeed the multi-pass flow always returns a
    document: nothing that the PDF library does can fail the request.  With
    the first render answered, the pages counted as [n], the footer template
    loaded and rendering, and the renderer answering, the flow returns; it
    has posted the first-pass form and then the footer forms of pages
    [1 .. n] in order, [n + 1] posts in all, and every dict that existed
    before holds the entries it held. *)
Theorem page_numbers_returns (name : pyval) (l : loc) (d : gmap string pyval)
    (html : string) (s : state) (resp : response) (n : Z) (t : template) :
  heap s !! l = Some d →
  renderer_succeeds w →
  http_post w (trace s) (pdf_request w html false None) = inr resp →
  get_pdf_page_count w (content resp) = inr n →
  get_template w (footer_template_path w) = inr t →
  (∀ k, 1 ≤ k ≤ n → ∃ h, template_render w t (page_context d k n) = inr h) →
  ∃ out s',
    _generate_pdf_with_page_numbers w name (Some l) html s = (Returned out, s')
    ∧ posts_of (trace s')
      = posts_of (trace s)
          ++ pdf_request w html false None
             :: ((λ k, footer_request w (footer_html w t d k n)) <$> seqZ 1 n)
    ∧ ∀ l0 d0, heap s !! l0 = Some d0 → heap s' !! l0 = Some d0.
Proof.
  intros Hl Hok Hpost Hcount Ht Hr.
  destruct (Hok (trace s) (pdf_request w html false None)) as (resp' & Hp' & Hst).
  rewrite Hpost in Hp'. injection Hp' as <-.
  unfold _generate_pdf_with_page_numbers.
  rewrite run_bind, run_generate_pdf, Hpost, (checked_ok resp Hst).
  rewrite run_bind, run_lift, Hcount. simpl.
  set (s1 := with_trace s [EvPost (pdf_request w html false None)]).
  rewrite run_bind. unfold _generate_footer_pdfs. fold (footer_template_path w).
  rewrite run_bind, run_lift, Ht. simpl. unfold range.
  pose proof (footer_loop_frame w t (Some l) n) as Hframe.
  destruct (run_footer_loop w t l d n (seqZ 0 n) Hok) with (acc := @nil (list byte)) (s := s1)
    as (docs & s2 & Hrun & _ & Htr & _).
  { intros i Hi. apply elem_of_seqZ in Hi. apply Hr. lia. }
  { exact Hl. }
  assert (Hheap : ∀ l0 d0, heap s !! l0 = Some d0 → heap s2 !! l0 = Some d0).
  { intros l0 d0 H0. specialize (Hframe l0 d0 (seqZ 0 n) [] s1 H0).
    rewrite Hrun in Hframe. exact Hframe. }
  rewrite Hrun. simpl.
  destruct (overlay_returns_with_logs (content resp) docs s2) as (out & logs & Hov & Hlogs).
  exists out, (with_trace s2 logs). split; [exact Hov|]. split; [|exact Hheap].
  simpl. rewrite Htr. subst s1. simpl.
  rewrite !posts_of_app, (posts_of_logs logs Hlogs), app_nil_r. simpl.
  rewrite (fmap_pages_seqZ (footer_post w t d n)), posts_of_footer_posts.
  rewrite <- app_assoc. reflexivity.
Qed.

End OverlayExtras.

(** ** The further properties on the stub *)

(** An invoice template: page numbering and template arguments make no
    difference. *)
Lemma non_statement_ignores_flag_and_args_witness :
  ReportService._finalize_pdf (Stub.stub 200 Stub.three_pages "")
    (PyStr "invoice") (Some 2%positive) "<html/>" true Stub.st0
  = ReportService._finalize_pdf (Stub.stub 200 Stub.three_pages "")
      (PyStr "invoice") None "<html/>" false Stub.st0.
Proof.
  exact (proj1 (non_statement_ignores_flag_and_args (Stub.stub 200 Stub.three_pages "")
                  (PyStr "invoice") "<html/>" (Some 2%positive) None true false
                  Stub.st0 eq_refl)).
Defined.

(** A [reportName] of 5 raises [TypeError], and nothing was called. *)
Lemma report_name_types_witness :
  ∃ m,
    ReportService.create_report_from_template (Stub.stub 200 Stub.three_pages "")
      "e3sgcmVwb3J0TmFtZSB9fQ==" (Some 1%positive) true StubExtras.st_numbered
    = (Raised (TypeError m), StubExtras.st_numbered).
Proof.
  apply (proj2 (report_name_types (Stub.stub 200 Stub.three_pages "")
                  "e3sgcmVwb3J0TmFtZSB9fQ==" 1%positive {[ "reportName" := PyInt 5 ]}
                  (PyInt 5) true StubExtras.st_numbered
                  "e3sgcmVwb3J0TmFtZSB9fQ==" "e3sgcmVwb3J0TmFtZSB9fQ=="
                  eq_refl eq_refl eq_refl eq_refl)).
  left. exists 5. split; [reflexivity|lia].
Defined.

(** Template arguments [None]: the render raises and nothing was called. *)
Lemma adhoc_template_failures_witness :
  ∃ m,
    ReportService.create_report_from_template (Stub.stub 200 Stub.three_pages "")
      "PGh0bWwvPg==" None true Stub.st0
    = (Raised (TypeError m), Stub.st0).
Proof.
  exact (proj1 (proj2 (adhoc_template_failures (Stub.stub 200 Stub.three_pages "")
                         "PGh0bWwvPg==" true Stub.st0))
           "PGh0bWwvPg==" eq_refl).
Defined.

(** A stored template with template arguments [None]. *)
Lemma stored_template_failures_witness :
  ∃ m,
    StoredTemplates.create_report_from_stored_template
      (Stub.stub 200 Stub.three_pages "") StubExtras.stub_url_for
      "invoice" None true Stub.st0
    = (Raised (TypeError m), Stub.st0).
Proof.
  exact (proj1 (proj2 (proj2 (proj2
           (stored_template_failures (Stub.stub 200 Stub.three_pages "")
              StubExtras.stub_url_for "invoice" true Stub.st0))))
           "templates/invoice.html" "/static/images/bcgov-logo-vert.jpg"
           "/static/images/reg_logo.png" eq_refl eq_refl eq_refl).
Defined.

(** The stored invoice template: one post of [index.html]. *)
Lemma stored_template_render_witness :
  posts_of (trace (snd (StoredTemplates.create_report_from_stored_template
                          (Stub.stub 200 Stub.three_pages "") StubExtras.stub_url_for
                          "invoice" (Some 1%positive) true Stub.st0)))
  = [Request "http://localhost:3000/forms/chromium/convert/html"
       [FilePart "files" "index.html" "templates/invoice.html" "text/html"] [] 120].
Proof.
  rewrite (proj2 (proj2 (stored_template_render (Stub.stub 200 Stub.three_pages "")
                    StubExtras.stub_url_for "invoice" 1%positive
                    {[ "accountName" := PyStr "acme" ]} true Stub.st0
                    "templates/invoice.html" "/static/images/bcgov-logo-vert.jpg"
                    "/static/images/reg_logo.png" "templates/invoice.html"
                    eq_refl eq_refl eq_refl eq_refl eq_refl)) eq_refl).
  reflexivity.
Defined.


(** Template arguments [None] and two pages. *)
Lemma footer_pdfs_edges_witness :
  ∃ m,
    ReportService._generate_footer_pdfs (Stub.stub 200 Stub.three_pages "") None 2 Stub.st0
    = (Raised (AttributeError m), Stub.st0).
Proof.
  apply (proj2 (proj2 (footer_pdfs_edges (Stub.stub 200 Stub.three_pages "") Stub.st0))
           "templates/statement_footer.html" 2 eq_refl).
  lia.
Defined.

(** Template arguments [None] and a first pass of three pages: one post,
    then [AttributeError]. *)
Lemma page_numbers_early_failures_witness :
  ∃ m,
    ReportService._generate_pdf_with_page_numbers (Stub.stub 200 Stub.three_pages "")
      (PyStr "statement_report") None "<html/>" Stub.st0
    = (Raised (AttributeError m),
       with_trace Stub.st0
         [EvPost (ReportService.pdf_request (Stub.stub 200 Stub.three_pages "")
                    "<html/>" false None)]).
Proof.
  apply (proj2 (proj2 (proj2
           (page_numbers_early_failures (Stub.stub 200 Stub.three_pages "")
              (PyStr "statement_report") None "<html/>" Stub.st0)))
           Stub.three_pages 3 "templates/statement_footer.html" eq_refl eq_refl eq_refl).
  lia.
Defined.

(** A footer document without pages: the page stays as it is. *)
Lemma footer_document_pages_witness :
  ReportService.overlay_step (Stub.stub 200 Stub.three_pages "") [[x50]] 0 x01 Stub.st0
  = (Returned x01, Stub.st0).
Proof.
  exact (proj1 (footer_document_pages (Stub.stub 200 Stub.three_pages "")
                  [[x50]] [[x50]] 0 x01 Stub.st0 [x50] eq_refl)
           x01 eq_refl eq_refl).
Defined.

(** Without [add_overlay] three good footers change nothing. *)
Lemma overlay_without_add_overlay_witness :
  fst (ReportService._overlay_footer_pdfs_on_main_pdf StubExtras.stub_without_add_overlay
         Stub.three_pages [Stub.good_footer; Stub.good_footer; Stub.good_footer] Stub.st0)
  = fst (ReportService._overlay_footer_pdfs_on_main_pdf StubExtras.stub_without_add_overlay
           Stub.three_pages [] Stub.st0).
Proof.
  exact (proj1 (overlay_without_add_overlay StubExtras.stub_without_add_overlay
                  Stub.three_pages [Stub.good_footer; Stub.good_footer; Stub.good_footer]
                  Stub.st0 eq_refl)).
Defined.

(** Three pages: the flow returns after four posts. *)
Lemma page_numbers_returns_witness :
  ∃ out s',
    ReportService._generate_pdf_with_page_numbers (Stub.stub 200 Stub.three_pages "")
      (PyStr "statement_report") (Some 1%positive) "<html/>" Stub.st0
    = (Returned out, s')
    ∧ length (posts_of (trace s')) = 4%nat.
Proof.
  destruct (page_numbers_returns (Stub.stub 200 Stub.three_pages "")
              (PyStr "statement_report") 1%positive {[ "accountName" := PyStr "acme" ]}
              "<html/>" Stub.st0 (Response 200 Stub.three_pages) 3
              "templates/statement_footer.html" eq_refl
              (stub_renderer_succeeds Stub.three_pages "") eq_refl eq_refl eq_refl)
    as (out & s' & Hrun & Hposts & _).
  - intros k _. eexists. apply stub_footer_renders.
  - exists out, s'. split; [exact Hrun|]. rewrite Hposts. reflexivity.
Defined.

(** * Properties of the GC Notify provider *)

Section Splitting.

Import GCNotify.

Lemma split_on_nonempty (sep : Ascii.ascii) (s : string) : split_on sep s ≠ [].
Proof.
  destruct s as [|c rest]; simpl; [discriminate|].
  destruct (Ascii.eqb c sep); [discriminate|].
  destruct (split_on sep rest); discriminate.
Qed.

Lemma split_on_length (sep : Ascii.ascii) (s : string) :
  length (split_on sep s) = S (char_count sep s).
Proof.
  induction s as [|c rest IH]; simpl; [reflexivity|].
  pose proof (split_on_nonempty sep rest) as Hne.
  destruct (Ascii.eqb c sep); simpl; [rewrite IH; reflexivity|].
  destruct (split_on sep rest) as [|p ps]; [congruence|exact IH].
Qed.

(** X15: [split_on], the [str.split] of the recipients string, undoes a
    join: joining the pieces with the separator gives the string back.  No
    piece holds the separator, and there is one piece more than there are
    separators; so the empty string splits to one empty piece, and blanks
    after a comma stay in the piece. *)
Theorem split_on_join (sep : Ascii.ascii) (s : string) :
  String.concat (String sep EmptyString) (split_on sep s) = s
  ∧ Forall (λ piece, char_count sep piece = 0%nat) (split_on sep s)
  ∧ length (split_on sep s) = S (char_count sep s).
Proof.
  induction s as [|c rest (IHj & IHf & IHl)]; simpl.
  - repeat split; constructor; [reflexivity|constructor].
  - pose proof (split_on_nonempty sep rest) as Hne.
    destruct (Ascii.eqb c sep) eqn:Hc.
    + apply Ascii.eqb_eq in Hc. subst c.
      destruct (split_on sep rest) as [|p ps]; [congruence|].
      split; [|split].
      * change (String.concat (String sep "") ("" :: p :: ps))
          with (String sep (String.concat (String sep "") (p :: ps))).
        rewrite IHj. reflexivity.
      * constructor; [reflexivity|exact IHf].
      * simpl in *. lia.
    + destruct (split_on sep rest) as [|p ps]; [congruence|].
      split; [|split].
      * destruct ps as [|q qs].
        -- simpl in *. rewrite IHj. reflexivity.
        -- change (String.concat (String sep "") (String c p :: q :: qs))
             with (String c (p +:+ String sep "" +:+ String.concat (String sep "") (q :: qs))).
           change (String.concat (String sep "") (p :: q :: qs))
             with (p +:+ String sep "" +:+ String.concat (String sep "") (q :: qs)) in IHj.
           rewrite IHj. reflexivity.
      * inversion IHf as [|? ? Hp Hps]; subst.
        constructor; [|exact Hps]. simpl. rewrite Hc, Hp. reflexivity.
      * simpl in *. exact IHl.
Qed.

End Splitting.

Section Sending.

Context {client R RS : Type} (env : GCNotify.Env client R RS) (cfg : GCNotify.Config).
Import GCNotify.

Lemma attempts_of_app (a b : list send_event) :
  attempts_of (a ++ b) = attempts_of a ++ attempts_of b.
Proof. induction a as [|[req|r e] a IH]; simpl; rewrite ?IH; reflexivity. Qed.

Lemma failed_of_app (a b : list send_event) :
  failed_of (a ++ b) = failed_of a ++ failed_of b.
Proof. induction a as [|[req|r e] a IH]; simpl; rewrite ?IH; reflexivity. Qed.

Lemma send_loop_attempts (c : client) (ec : gmap string personalisation_value)
    (recipient_list : list string) :
  ∀ response_list tr,
    attempts_of (snd (send_loop env cfg c ec recipient_list response_list tr))
      = attempts_of tr ++ map (request_for cfg ec) recipient_list.
Proof.
  induction recipient_list as [|r rest IH]; intros response_list tr; simpl.
  - rewrite app_nil_r. reflexivity.
  - destruct (send_one env cfg c ec r tr); rewrite IH, !attempts_of_app; simpl;
      rewrite ?app_nil_r, <- app_assoc; reflexivity.
Qed.

Lemma send_one_response (c : client) (ec : gmap string personalisation_value)
    (recipient : string) (tr : list send_event) (r : R) :
  send_one env cfg c ec recipient tr = inr r →
  ∃ response response_id,
    send_email_notification env c tr (request_for cfg ec recipient) = inr response
    ∧ response !! "id" = Some response_id
    ∧ NotificationSendResponse env response_id recipient = inr r.
Proof.
  unfold send_one.
  destruct (send_email_notification env c tr _) as [e|response]; [discriminate|].
  destruct (response !! "id") as [i|] eqn:Hi; [|discriminate].
  intros H. exists response, i. auto.
Qed.

(** Every recipient of the loop ends in the responses or in the error log. *)
Lemma send_loop_accounts (c : client) (ec : gmap string personalisation_value)
    (recipient_list : list string) :
  ∀ response_list tr,
    ∃ sent failed news,
      fst (send_loop env cfg c ec recipient_list response_list tr) = response_list ++ news
      ∧ failed_of (snd (send_loop env cfg c ec recipient_list response_list tr))
        = failed_of tr ++ failed
      ∧ sent `sublist_of` recipient_list
      ∧ failed `sublist_of` recipient_list
      ∧ sent ++ failed ≡ₚ recipient_list
      ∧ Forall2 (λ recipient r, ∃ response_id,
                   NotificationSendResponse env response_id recipient = inr r) sent news.
Proof.
  induction recipient_list as [|r rest IH]; intros response_list tr; simpl.
  - exists [], [], []. rewrite !app_nil_r. repeat split; constructor.
  - destruct (send_one env cfg c ec r tr) as [e|resp] eqn:Hone.
    + destruct (IH response_list
                  ((tr ++ [Attempt (request_for cfg ec r)]) ++ [ErrorLogged r e]))
        as (sent & failed & news & Hf & Hl & Hs1 & Hs2 & Hp & Hall).
      exists sent, (r :: failed), news. split; [exact Hf|]. split.
      { rewrite Hl, !failed_of_app. simpl. rewrite app_nil_r, <- app_assoc. reflexivity. }
      split; [apply sublist_cons; exact Hs1|].
      split; [apply sublist_skip; exact Hs2|].
      split; [|exact Hall].
      rewrite <- Permutation_middle. constructor. exact Hp.
    + destruct (IH (response_list ++ [resp]) (tr ++ [Attempt (request_for cfg ec r)]))
        as (sent & failed & news & Hf & Hl & Hs1 & Hs2 & Hp & Hall).
      exists (r :: sent), failed, (resp :: news). split.
      { rewrite Hf, <- app_assoc. reflexivity. }
      split.
      { rewrite Hl, failed_of_app. simpl. rewrite app_nil_r. reflexivity. }
      split; [apply sublist_skip; exact Hs1|].
      split; [apply sublist_cons; exact Hs2|].
      split; [simpl; constructor; exact Hp|].
      constructor; [|exact Hall].
      destruct (send_one_response c ec r tr resp Hone) as (_ & i & _ & _ & Hi).
      exists i. exact Hi.
Qed.

(** X16: [send] tries every recipient once, in the order of the recipients
    string, whatever the service answers: with the client built and a first
    content, the requests attempted are one for each comma-separated piece,
    and they all carry the same template, reply-to id and personalisation. *)
Theorem send_attempts_every_recipient (notification : Notification)
    (tr : list send_event) (c : client) (content0 : Content) (more : list Content) :
  new_client env (GC_NOTIFY_API_KEY cfg) (GC_NOTIFY_API_URL cfg) = inr c →
  content notification = content0 :: more →
  attempts_of (snd (send env cfg notification tr))
    = attempts_of tr
        ++ map (request_for cfg (email_content_for env cfg content0))
             (split_on comma (recipients notification))
  ∧ length (attempts_of (snd (send env cfg notification tr)))
    = (length (attempts_of tr) + S (char_count comma (recipients notification)))%nat.
Proof.
  intros Hc Hcontent.
  assert (E : attempts_of (snd (send env cfg notification tr))
              = attempts_of tr
                  ++ map (request_for cfg (email_content_for env cfg content0))
                       (split_on comma (recipients notification))).
  { unfold send. rewrite Hc, Hcontent.
    pose proof (send_loop_attempts c (email_content_for env cfg content0)
                  (split_on comma (recipients notification)) [] tr) as H.
    destruct (send_loop env cfg c _ _ [] tr) as [rs tr']. exact H. }
  split; [exact E|].
  rewrite E, length_app, length_map, split_on_length. reflexivity.
Qed.

End Sending.

Section SendingClaims.

Context {client R RS : Type} (env : GCNotify.Env client R RS) (cfg : GCNotify.Config).
Import GCNotify.

(** X17: a recipient that fails does not stop the others, and [send] does
    not raise for it.  With the client built and a first content, the
    outcome of [send] is that of building the final model from the list of
    responses; the recipients split into those sent and those failed, both
    in the order of the recipients string; each response belongs to a sent
    recipient, in order, and each failed recipient is logged once. *)
Theorem send_accounts_for_every_recipient (notification : Notification)
    (tr : list send_event) (c : client) (content0 : Content) (more : list Content) :
  new_client env (GC_NOTIFY_API_KEY cfg) (GC_NOTIFY_API_URL cfg) = inr c →
  content notification = content0 :: more →
  ∃ responses sent failed,
    fst (send env cfg notification tr) = NotificationSendResponses env responses
    ∧ failed_of (snd (send env cfg notification tr)) = failed_of tr ++ failed
    ∧ sent `sublist_of` split_on comma (recipients notification)
    ∧ failed `sublist_of` split_on comma (recipients notification)
    ∧ sent ++ failed ≡ₚ split_on comma (recipients notification)
    ∧ Forall2 (λ recipient r, ∃ response_id,
                 NotificationSendResponse env response_id recipient = inr r)
        sent responses.
Proof.
  intros Hc Hcontent. unfold send. rewrite Hc, Hcontent.
  destruct (send_loop_accounts env cfg c (email_content_for env cfg content0)
              (split_on comma (recipients notification)) [] tr)
    as (sent & failed & news & Hf & Hl & Hs1 & Hs2 & Hp & Hall).
  destruct (send_loop env cfg c _ _ [] tr) as [rs tr']. simpl in *. subst rs.
  exists news, sent, failed. repeat split; assumption.
Qed.

(** X18: what stops [send] before the first recipient.  When the client
    cannot be built its error is the outcome; when the notification has no
    content the outcome is [IndexError]; in both cases nothing is sent and
    nothing is logged. *)
Theorem send_early_failures (notification : Notification) (tr : list send_event) :
  (∀ e, new_client env (GC_NOTIFY_API_KEY cfg) (GC_NOTIFY_API_URL cfg) = inl e →
     send env cfg notification tr = (inl e, tr))
  ∧ (∀ c, new_client env (GC_NOTIFY_API_KEY cfg) (GC_NOTIFY_API_URL cfg) = inr c →
       content notification = [] →
       ∃ m, send env cfg notification tr = (inl (IndexError m), tr)).
Proof.
  unfold send. split.
  - intros e He. rewrite He. reflexivity.
  - intros c Hc Hn. rewrite Hc, Hn. eexists. reflexivity.
Qed.

Lemma attachment_key_inj (i j : nat) : attachment_key i = attachment_key j → i = j.
Proof.
  unfold attachment_key. intros H.
  apply (inj (String.append "attachment")) in H.
  apply (inj pretty) in H. exact H.
Qed.

Lemma attachment_key_not_text (i : nat) :
  attachment_key i ≠ "email_subject" ∧ attachment_key i ≠ "email_body".
Proof. unfold attachment_key. split; intros H; cbn [String.append] in H; discriminate. Qed.

Lemma update_attachments_other (atts : list Attachment) :
  ∀ idx m key,
    (∀ j, (idx ≤ j < idx + length atts)%nat → key ≠ attachment_key j) →
    update_attachments env idx atts m !! key = m !! key.
Proof.
  induction atts as [|a rest IH]; intros idx m key Hk; simpl; [reflexivity|].
  rewrite IH.
  - apply lookup_insert_ne. intros E. apply (Hk idx); [simpl; lia|]. symmetry. exact E.
  - intros j Hj. apply Hk. simpl. lia.
Qed.

Lemma update_attachments_lookup (atts : list Attachment) :
  ∀ idx m i a,
    atts !! i = Some a →
    update_attachments env idx atts m !! attachment_key (idx + i)
      = Some (attachment_value env a).
Proof.
  induction atts as [|a0 rest IH]; intros idx m i a Hi; [discriminate|].
  destruct i as [|i]; simpl in *.
  - injection Hi as ->. rewrite Nat.add_0_r.
    rewrite update_attachments_other.
    + apply lookup_insert_eq.
    + intros j Hj E. apply attachment_key_inj in E. lia.
  - replace (idx + S i)%nat with (S idx + i)%nat by lia. apply IH. exact Hi.
Qed.

(** X19: the personalisation that is sent.  It holds the subject, the body
    and one entry [attachment0], [attachment1], .. for each attachment, in
    their order, with the encoded file, its name and the method ['attach'];
    an attachment never takes the place of the subject, the body or another
    attachment, and there is no other entry.  Without attachments ([None]
    or an empty list) it holds the subject and the body only. *)
Theorem email_content_entries (c : Content) :
  let ec := email_content_for env cfg c in
  ec !! "email_subject" = Some (Text (subject_for env cfg c))
  ∧ ec !! "email_body" = Some (Text (body c))
  ∧ (∀ atts i a, attachments c = Some atts → atts !! i = Some a →
       ec !! attachment_key i = Some (attachment_value env a))
  ∧ (∀ key, key ≠ "email_subject" → key ≠ "email_body" →
       (∀ i, (i < length (default [] (attachments c)))%nat → key ≠ attachment_key i) →
       ec !! key = None).
Proof.
  intros ec. subst ec. unfold email_content_for.
  destruct (attachments c) as [[|a rest]|] eqn:Ha.
  - split; [reflexivity|]. split; [reflexivity|]. split.
    + intros atts i a0 [= <-]. discriminate.
    + intros key H1 H2 _. rewrite lookup_insert_ne by congruence.
      apply lookup_singleton_ne. congruence.
  - split; [|split; [|split]].
    + rewrite update_attachments_other; [reflexivity|].
      intros j _ E. symmetry in E. apply (proj1 (attachment_key_not_text j) E).
    + rewrite update_attachments_other; [reflexivity|].
      intros j _ E. symmetry in E. apply (proj2 (attachment_key_not_text j) E).
    + intros atts i a0 [= <-] Hi.
      apply (update_attachments_lookup (a :: rest) 0 _ i a0 Hi).
    + intros key H1 H2 H3. rewrite update_attachments_other.
      * rewrite lookup_insert_ne by congruence.
        apply lookup_singleton_ne. congruence.
      * intros j Hj. apply H3. simpl in *. lia.
  - split; [reflexivity|]. split; [reflexivity|]. split.
    + intros atts i a0 [=].
    + intros key H1 H2 _. rewrite lookup_insert_ne by congruence.
      apply lookup_singleton_ne. congruence.
Qed.

End SendingClaims.

(** Four addresses: four attempts, in order. *)
Lemma send_attempts_every_recipient_witness :
  map GCNotify.email_address
    (GCNotify.attempts_of
       (snd (GCNotify.send (GCNotify.stub_env "bad@y.ca") (GCNotify.stub_cfg (Some "dev"))
               stub_notification [])))
  = ["a@x.ca"; "bad@y.ca"; ""; "c@z.ca"].
Proof.
  rewrite (proj1 (send_attempts_every_recipient (GCNotify.stub_env "bad@y.ca")
                    (GCNotify.stub_cfg (Some "dev")) stub_notification [] tt
                    _ _ eq_refl eq_refl)).
  reflexivity.
Defined.

(** The refused and the empty address are logged, the two others answered. *)
Lemma send_accounts_for_every_recipient_witness :
  ∃ responses sent failed,
    fst (GCNotify.send (GCNotify.stub_env "bad@y.ca") (GCNotify.stub_cfg (Some "dev"))
           stub_notification []) = inr responses
    ∧ GCNotify.failed_of
        (snd (GCNotify.send (GCNotify.stub_env "bad@y.ca") (GCNotify.stub_cfg (Some "dev"))
                stub_notification [])) = failed
    ∧ sent ++ failed ≡ₚ ["a@x.ca"; "bad@y.ca"; ""; "c@z.ca"].
Proof.
  destruct (send_accounts_for_every_recipient (GCNotify.stub_env "bad@y.ca")
              (GCNotify.stub_cfg (Some "dev")) stub_notification [] tt _ _
              eq_refl eq_refl)
    as (responses & sent & failed & Hf & Hl & _ & _ & Hp & _).
  exists responses, sent, failed. split; [exact Hf|]. split; [exact Hl|exact Hp].
Defined.

(** A notification without content. *)
Lemma send_early_failures_witness :
  ∃ m,
    GCNotify.send (GCNotify.stub_env "") (GCNotify.stub_cfg None)
      stub_notification_without_content []
    = (inl (GCNotify.IndexError m), []).
Proof.
  exact (proj2 (send_early_failures (GCNotify.stub_env "") (GCNotify.stub_cfg None)
                  stub_notification_without_content [])
           tt eq_refl eq_refl).
Defined.

(** The second attachment is [attachment1]. *)
Lemma email_content_entries_witness :
  GCNotify.email_content_for (GCNotify.stub_env "") (GCNotify.stub_cfg None)
    {| GCNotify.subject := "Hello"; GCNotify.body := "Body";
       GCNotify.attachments :=
         Some [ {| GCNotify.file_name := "f.pdf"; GCNotify.file_bytes := [x50; x44] |};
                {| GCNotify.file_name := "g.pdf"; GCNotify.file_bytes := [] |} ] |}
    !! "attachment1"
  = Some (GCNotify.File "" "g.pdf" "attach").
Proof.
  exact (proj1 (proj2 (proj2
           (email_content_entries (GCNotify.stub_env "") (GCNotify.stub_cfg None)
              {| GCNotify.subject := "Hello"; GCNotify.body := "Body";
                 GCNotify.attachments :=
                   Some [ {| GCNotify.file_name := "f.pdf";
                             GCNotify.file_bytes := [x50; x44] |};
                          {| GCNotify.file_name := "g.pdf";
                             GCNotify.file_bytes := [] |} ] |})))
           _ 1%nat _ eq_refl eq_refl).
Defined.
